(** * Gold-price dashboard (main.py): fetcher, statistics and renderer

    A shallow embedding of [get_gold_data] and of the Dash callback
    [render_content], together with the library calls they make
    (requests, json, numpy and pandas reductions, [round]).

    Conventions of the model.
    - A float is a binary64 number: a finite value, carried as the
      rational it is, or inf, -inf or nan.  Every arithmetic operation
      returns the binary64 number nearest to the exact result (halves to
      the even significand, inf beyond the largest finite number); the last
      section replays examples on the machine's floats.  The two zeros are
      one value; they differ only in how they print.
    - pandas works without the optional bottleneck package: a column is
      summed by numpy, pairwise.  Reductions skip nan.
    - The network is a function from the requested URL to what
      [requests.get] does with it; the world records every GET issued and
      every line printed.
    - requests is taken at version 2.27 or later, where the exception of
      [Response.json] derives from RequestException.
    - [pd.to_datetime] is total: dates outside the range of pandas'
      nanosecond timestamps (years 1677 to 2262) are not modelled.
    - [strptime], [float] on strings and matplotlib's PNG encoder are
      section parameters. *)

From Stdlib Require Import ZArith QArith Qround Qabs Qminmax Qpower Qreduction.
From Stdlib Require Import List String Ascii Bool Lia Lqa.
From Stdlib Require Import Sorting.Mergesort Sorting.Sorted Sorting.Permutation.
From Stdlib Require Import SetoidList Orders.
From Stdlib Require Floats.
From Corelib Require PrimFloat.
Import ListNotations.

Set Warnings "-register-all,-inexact-float".

Open Scope string_scope.
Open Scope Q_scope.

(** ** Numbers *)

(** A binary64 value as the code sees it. *)
Inductive num : Type :=
| Rat (q : Q)              (* a finite value: the rational it is *)
| Inf (negative : bool)    (* inf and -inf *)
| NaN.

(** Nearest integer, halves to the even neighbour. *)
Definition rint (x : Q) : Z :=
  let f := Qfloor x in
  match Qcompare (x - inject_Z f) (1 # 2) with
  | Lt => f
  | Gt => (f + 1)%Z
  | Eq => if Z.even f then f else (f + 1)%Z
  end.

(** Nearest integer to the square root of [w], halves to even. *)
Definition rint_sqrt (w : Q) : Z :=
  let f := Z.sqrt (Qfloor w) in
  let h := inject_Z f + (1 # 2) in
  match Qcompare w (h * h) with
  | Lt => f
  | Gt => (f + 1)%Z
  | Eq => if Z.even f then f else (f + 1)%Z
  end.

Definition pow2 (e : Z) : Q := 2 ^ e.

(** The binade of a positive rational: [pow2 e <= q < pow2 (e + 1)]. *)
Definition ilog2 (q : Q) : Z :=
  let e := (Z.log2 (Qnum q) - Z.log2 (Zpos (Qden q)))%Z in
  if Qle_bool (pow2 e) q then e else (e - 1)%Z.

(** The exponent of the last place of a binary64 number of binade [e]:
    53 significant bits, subnormal below [pow2 (-1022)]. *)
Definition ulp_exponent (e : Z) : Z := Z.max (e - 52) (-1074).

(** The integer [m] times [pow2 s] as a float: inf from [pow2 1024] on. *)
Definition scaled (m s : Z) : num :=
  let r := inject_Z m * pow2 s in
  if Qle_bool (pow2 1024) (Qabs r) then Inf (m <? 0)%Z else Rat (Qred r).

(** The binary64 number nearest to [q], halves to the even significand, inf
    when that is beyond the largest finite number: how a decimal literal is
    read and how the result of every arithmetic operation is rounded. *)
Definition double (q : Q) : num :=
  let s := ulp_exponent (ilog2 (Qabs q)) in
  scaled (rint (q / pow2 s)) s.

Definition isnan (x : num) : bool :=
  match x with NaN => true | _ => false end.

Definition num_opp (a : num) : num :=
  match a with
  | Rat x => Rat (- x)
  | Inf s => Inf (negb s)
  | NaN => NaN
  end.

Definition num_add (a b : num) : num :=
  match a, b with
  | Rat x, Rat y => double (x + y)
  | Inf s, Inf t => if Bool.eqb s t then Inf s else NaN
  | Inf s, Rat _ | Rat _, Inf s => Inf s
  | NaN, _ | _, NaN => NaN
  end.

Definition num_sub (a b : num) : num := num_add a (num_opp b).

Definition negative (x : Q) : bool := Qle_bool x 0 && negb (Qeq_bool x 0).

Definition num_mul (a b : num) : num :=
  match a, b with
  | Rat x, Rat y => double (x * y)
  | Inf s, Inf t => Inf (xorb s t)
  | Inf s, Rat y | Rat y, Inf s => if Qeq_bool y 0 then NaN else Inf (xorb s (negative y))
  | NaN, _ | _, NaN => NaN
  end.

(** Division; a zero divisor counts as +0. *)
Definition num_div (a b : num) : num :=
  match a, b with
  | Rat x, Rat y =>
      if Qeq_bool y 0
      then (if Qeq_bool x 0 then NaN else Inf (negative x))
      else double (x / y)
  | Rat _, Inf _ => Rat 0
  | Inf s, Rat y => Inf (xorb s (negative y))
  | Inf _, Inf _ => NaN
  | NaN, _ | _, NaN => NaN
  end.

(** [np.sqrt]: the square root rounded to nearest. *)
Definition num_sqrt (a : num) : num :=
  match a with
  | Rat x =>
      if negative x then NaN
      else if Qeq_bool x 0 then Rat 0
      else
        let s := ulp_exponent (ilog2 x / 2) in
        scaled (rint_sqrt (x / pow2 (2 * s))) s
  | Inf s => if s then NaN else Inf false
  | NaN => NaN
  end.

(** [np.rint]. *)
Definition num_rint (a : num) : num :=
  match a with
  | Rat x => Rat (inject_Z (rint x))
  | _ => a
  end.

(** [<=] and [==] on floats: false when either side is nan. *)
Definition num_leb (a b : num) : bool :=
  match a, b with
  | Rat x, Rat y => Qle_bool x y
  | Inf s, Inf t => s || negb t
  | Inf s, Rat _ => s
  | Rat _, Inf t => negb t
  | NaN, _ | _, NaN => false
  end.

Definition num_eqb (a b : num) : bool :=
  match a, b with
  | Rat x, Rat y => Qeq_bool x y
  | Inf s, Inf t => Bool.eqb s t
  | _, _ => false
  end.

Definition of_nat (n : nat) : num := double (inject_Z (Z.of_nat n)).

(** [round(x, ndigits)] on a numpy float: scale by [10 ** ndigits], round
    to the nearest integer, scale back, each step in binary64. *)
Definition round (x : num) (ndigits : nat) : num :=
  let f := double (inject_Z (10 ^ Z.of_nat ndigits)) in
  num_div (num_rint (num_mul x f)) f.

(** *** The machine's floats

    Used only to replay examples (last section): the same operations on
    the primitive binary64 numbers, and the value of such a number. *)
Module Binary64.
Import PrimFloat.

Definition of_spec (f : SpecFloat.spec_float) : num :=
  match f with
  | SpecFloat.S754_zero _ => Rat 0
  | SpecFloat.S754_infinity s => Inf s
  | SpecFloat.S754_nan => NaN
  | SpecFloat.S754_finite s m e =>
      Rat (Qred (inject_Z (if s then Z.neg m else Z.pos m) * pow2 e))
  end.

Definition of_float (f : float) : num := of_spec (FloatOps.Prim2SF f).

Local Open Scope float_scope.

(** [np.rint] for [0 <= y < 2^52]: adding and subtracting [2^52] rounds
    to the nearest integer, halves to even. *)
Definition rint (y : float) : float := (y + 0x1p52) - 0x1p52.

Definition round2 (x : float) : float := rint (x * 100) / 100.

Definition lerp (a b t : float) : float :=
  if 0.5 <=? t then b - (b - a) * (1 - t) else a + (b - a) * t.

(** A sample of floats: zero, a unit, decimals, a number near the largest
    one, the smallest subnormal, inf and nan. *)
Definition samples : list float :=
  [0; -1; 0.1; 2.675; 1e308; 5e-324; infinity; nan].

(** The same value; nan is the same as nan here. *)
Definition same (a b : num) : bool :=
  match a, b with
  | NaN, NaN => true
  | _, _ => num_eqb a b
  end.

(** An operation of the model gives what the machine gives, on every
    sample (on every pair of samples; for division the divisor 0 is left
    out, since the machine tells -0 from 0). *)
Definition agree1 (op : float -> float) (nop : num -> num) : bool :=
  forallb (fun a => same (of_float (op a)) (nop (of_float a))) samples.

Definition agree2 (op : float -> float -> float) (nop : num -> num -> num)
    (divisors : list float) : bool :=
  forallb (fun a =>
             forallb (fun b => same (of_float (op a b)) (nop (of_float a) (of_float b)))
                     divisors)
          samples.

Definition agree_leb : bool :=
  forallb (fun a =>
             forallb (fun b => Bool.eqb (a <=? b) (num_leb (of_float a) (of_float b))) samples)
          samples.

End Binary64.

(** ** numpy and pandas reductions on a float column *)

(** The order of [np.sort]: ascending, nan last. *)
Module NumOrder <: TotalLeBool.
Definition t := num.
Definition leb (x y : num) : bool :=
  match y with
  | NaN => true
  | _ => num_leb x y
  end.
Lemma leb_total : forall x y, leb x y = true \/ leb y x = true.
Proof.
  intros [x | [|] |] [y | [|] |]; cbn; auto.
  rewrite !Qle_bool_iff.
  destruct (Qlt_le_dec x y) as [H | H]; [left; apply Qlt_le_weak, H | right; exact H].
Qed.
End NumOrder.

Module NumSort := Sort NumOrder.

Definition sort_values (xs : list num) : list num := NumSort.sort xs.

(** [Series.dropna()]. *)
Definition dropna (xs : list num) : list num := filter (fun x => negb (isnan x)) xs.

(** nan replaced by 0, as pandas does before it sums with [skipna]. *)
Definition fillna0 (xs : list num) : list num :=
  map (fun x => if isnan x then Rat 0 else x) xs.

(** numpy's sum of a contiguous float array.  Fewer than 8 elements are
    added from left to right; up to 128 elements go through 8
    accumulators, combined pairwise and followed by the remaining
    elements; a longer array is halved at a multiple of 8. *)
Fixpoint unrolled_sum (r0 r1 r2 r3 r4 r5 r6 r7 : num) (a : list num) : num :=
  match a with
  | a0 :: a1 :: a2 :: a3 :: a4 :: a5 :: a6 :: a7 :: rest =>
      unrolled_sum (num_add r0 a0) (num_add r1 a1) (num_add r2 a2) (num_add r3 a3)
                   (num_add r4 a4) (num_add r5 a5) (num_add r6 a6) (num_add r7 a7) rest
  | _ =>
      fold_left num_add a
        (num_add (num_add (num_add r0 r1) (num_add r2 r3))
                 (num_add (num_add r4 r5) (num_add r6 r7)))
  end.

Fixpoint pairwise_sum (fuel : nat) (a : list num) : num :=
  let n := List.length a in
  if (n <? 8)%nat then fold_left num_add a (Rat 0)
  else if (n <=? 128)%nat then
    match a with
    | r0 :: r1 :: r2 :: r3 :: r4 :: r5 :: r6 :: r7 :: rest =>
        unrolled_sum r0 r1 r2 r3 r4 r5 r6 r7 rest
    | _ => Rat 0
    end
  else
    match fuel with
    | O => Rat 0
    | S fuel' =>
        let n2 := (n / 2 - (n / 2) mod 8)%nat in
        num_add (pairwise_sum fuel' (firstn n2 a)) (pairwise_sum fuel' (skipn n2 a))
    end.

(** [np.add.reduce]: the identity of addition plus the pairwise sum. *)
Definition np_sum (a : list num) : num :=
  num_add (Rat 0) (pairwise_sum (List.length a) a).

(** [Series.mean()]: the sum of the values that are not nan over their
    number; nan when there is none. *)
Definition Series_mean (xs : list num) : num :=
  match dropna xs with
  | [] => NaN
  | _ :: _ => num_div (np_sum (fillna0 xs)) (of_nat (List.length (dropna xs)))
  end.

Definition num_min (a b : num) : num := if num_leb b a then b else a.
Definition num_max (a b : num) : num := if num_leb a b then b else a.

(** [Series.min()] and [Series.max()]: over the values that are not nan;
    nan when there is none. *)
Definition Series_min (xs : list num) : num :=
  match dropna xs with
  | [] => NaN
  | x :: r => fold_left num_min r x
  end.

Definition Series_max (xs : list num) : num :=
  match dropna xs with
  | [] => NaN
  | x :: r => fold_left num_max r x
  end.

(** numpy's linear interpolation: from [b] downwards when [t] is at least
    one half. *)
Definition lerp (a b t : num) : num :=
  if num_leb (double 0.5) t
  then num_sub b (num_mul (num_sub b a) (num_sub (Rat 1) t))
  else num_add a (num_mul (num_sub b a) t).

(** [Series.quantile(q)], default interpolation 'linear': the values that
    are not nan are sorted, the virtual index is [(n - 1) * q] and the
    result interpolates between the order statistics on either side of
    it, the upper one clipped to the last. *)
Definition Series_quantile (xs : list num) (q : Q) : num :=
  let s := sort_values (dropna xs) in
  match s with
  | [] => NaN
  | x0 :: _ =>
      let n := List.length s in
      match num_mul (of_nat (n - 1)) (double q) with
      | Rat pos =>
          let lo := Z.to_nat (Qfloor pos) in
          let hi := Nat.min (lo + 1) (n - 1) in
          let gamma := num_sub (Rat pos) (Rat (inject_Z (Qfloor pos))) in
          lerp (nth lo s x0) (nth hi s x0) gamma
      | _ => NaN
      end
  end.

(** Number of occurrences of the value [x] in the column. *)
Definition count (x : num) (xs : list num) : nat :=
  List.length (filter (num_eqb x) xs).

Definition max_count (xs : list num) : nat :=
  fold_right Nat.max 0%nat (map (fun x => count x xs) xs).

Fixpoint unique (xs : list num) : list num :=
  match xs with
  | [] => []
  | x :: r => x :: filter (fun y => negb (num_eqb x y)) (unique r)
  end.

(** [Series.mode()]: nan dropped, the distinct values of highest count,
    ascending. *)
Definition Series_mode (xs : list num) : list num :=
  let v := dropna xs in
  sort_values (filter (fun x => Nat.eqb (count x v) (max_count v)) (unique v)).

(** [Series.std()], ddof = 1.  With [n] values that are not nan: nan unless
    [n] is at least 2; otherwise the square root of the sum of the squared
    deviations from the mean over [n - 1], nan counting as 0 in both sums. *)
Definition Series_std (xs : list num) : num :=
  let n := List.length (dropna xs) in
  if (n <=? 1)%nat then NaN
  else
    let avg := num_div (np_sum (fillna0 xs)) (of_nat n) in
    let sqr := map (fun x => if isnan x then Rat 0
                             else num_mul (num_sub avg x) (num_sub avg x)) xs in
    num_sqrt (num_div (np_sum sqr) (of_nat (n - 1))).
(** ** Exceptions, results and the callback's world *)

Inductive exn : Type :=
| ConnectionError (msg : string)   (* requests.get failed: no route, timeout, bad URL, ... *)
| HTTPError (status : Z)           (* raised by raise_for_status *)
| JSONDecodeError                  (* raised by Response.json *)
| KeyError (key : string)
| IndexError
| TypeError
| ValueError
| OverflowError.

(** [isinstance(e, requests.exceptions.RequestException)]: the three
    exceptions of the requests library (its JSONDecodeError derives from
    RequestException since requests 2.27). *)
Definition is_RequestException (e : exn) : bool :=
  match e with
  | ConnectionError _ | HTTPError _ | JSONDecodeError => true
  | KeyError _ | IndexError | TypeError | ValueError | OverflowError => false
  end.

Inductive result (A : Type) : Type :=
| Ok (a : A)
| Raise (e : exn).
Arguments Ok {A} a.
Arguments Raise {A} e.

(** A decoded JSON document, as [json.loads] builds it: an int for a
    number written without fraction or exponent, a float for any other
    number ([NaN] and [Infinity] are accepted), a list for an array, a dict
    (its items in insertion order) for an object. *)
Inductive json : Type :=
| JNull
| JBool (b : bool)
| JInt (z : Z)
| JFloat (x : num)
| JStr (s : string)
| JArr (items : list json)
| JObj (items : list (string * json)).

(** What [requests.get] hands back: the status code and the decoded body
    ([None] when the text is not JSON). *)
Record Response : Type := mkResponse {
  status_code : Z;
  body : option json
}.

Inductive get_outcome : Type :=
| GetRaises (msg : string)
| GetReturns (r : Response).

(** The world of a callback: the network as it answers, the GET requests
    issued so far (latest first) and what [print] wrote (latest first). *)
Record world : Type := mkWorld {
  network : string -> get_outcome;
  requests_sent : list string;
  printed : list (string * exn)
}.

(** Computations that may raise and that act on the world. *)
Definition M (A : Type) : Type := world -> result A * world.

Class Monad (m : Type -> Type) : Type := {
  ret : forall {A}, A -> m A;
  bind : forall {A B}, m A -> (A -> m B) -> m B
}.

#[export] Instance result_monad : Monad result := {
  ret := fun A a => Ok a;
  bind := fun A B c k => match c with Ok a => k a | Raise e => Raise e end
}.

#[export] Instance M_monad : Monad M := {
  ret := fun A a w => (Ok a, w);
  bind := fun A B c k w =>
    match c w with
    | (Ok a, w') => k a w'
    | (Raise e, w') => (Raise e, w')
    end
}.

Notation "x <- c ;; k" := (bind c (fun x => k))
  (at level 61, c at next level, right associativity).
Notation "c ;;; k" := (bind c (fun _ => k))
  (at level 61, right associativity).

Definition lift {A} (r : result A) : M A := fun w => (r, w).

(** [try: body  except RequestException as e: handler e]. *)
Definition try_except_RequestException {A} (body : M A) (handler : exn -> M A) : M A :=
  fun w =>
    match body w with
    | (Ok a, w') => (Ok a, w')
    | (Raise e, w') =>
        if is_RequestException e then handler e w' else (Raise e, w')
    end.

Fixpoint mapM {A B} (f : A -> result B) (l : list A) : result (list B) :=
  match l with
  | [] => Ok []
  | a :: r => b <- f a ;; bs <- mapM f r ;; ret (b :: bs)
  end.

(** *** requests *)

Definition requests_get (url : string) : M Response :=
  fun w =>
    let w' := mkWorld (network w) (url :: requests_sent w) (printed w) in
    match network w url with
    | GetRaises msg => (Raise (ConnectionError msg), w')
    | GetReturns r => (Ok r, w')
    end.

(** [Response.raise_for_status]: HTTPError for a 4xx or 5xx status. *)
Definition raise_for_status (r : Response) : result unit :=
  if ((400 <=? status_code r) && (status_code r <? 600))%Z
  then Raise (HTTPError (status_code r))
  else Ok tt.

Definition Response_json (r : Response) : result json :=
  match body r with
  | Some j => Ok j
  | None => Raise JSONDecodeError
  end.

Definition print (prefix : string) (e : exn) : M unit :=
  fun w => (Ok tt, mkWorld (network w) (requests_sent w) ((prefix, e) :: printed w)).

(** *** Python on decoded JSON *)

(** [for item in data]: the elements of a list, the keys of a dict, the
    characters of a string; anything else is not iterable. *)
Definition iter (data : json) : result (list json) :=
  match data with
  | JArr items => Ok items
  | JObj items => Ok (map (fun kv => JStr (fst kv)) items)
  | JStr s => Ok (map (fun c => JStr (String c EmptyString)) (list_ascii_of_string s))
  | JNull | JBool _ | JInt _ | JFloat _ => Raise TypeError
  end.

Fixpoint dict_get {V} (items : list (string * V)) (key : string) : result V :=
  match items with
  | [] => Raise (KeyError key)
  | (k, v) :: r => if String.eqb k key then Ok v else dict_get r key
  end.

(** [item[key]] with a string key. *)
Definition getitem (item : json) (key : string) : result json :=
  match item with
  | JObj items => dict_get items key
  | _ => Raise TypeError
  end.

(** [series[0]] on the result of [mode()], whose index is 0, 1, ... *)
Definition getitem0 (values : list num) : result num :=
  match values with
  | [] => Raise (KeyError "0")
  | v :: _ => Ok v
  end.

Record date : Type := mkDate { year : Z; month : Z; day : Z }.

(** [pd.to_datetime] turns a date into the timestamp of its midnight. *)
Inductive Timestamp : Type := Midnight (d : date).

Definition to_datetime (ds : list date) : list Timestamp := map Midnight ds.

Record DataFrame : Type := mkDataFrame {
  Date : list Timestamp;
  Price : list num
}.

(** *** Dash components *)

(** The pieces of an f-string: literal text and interpolated floats. *)
Inductive fragment : Type :=
| Lit (s : string)
| Val (v : num).

(** A cell of the statistics frame: a label or a float. *)
Inductive cell : Type :=
| CStr (s : string)
| CNum (v : num).

Inductive component : Type :=
| Div (children : list component) (className : option string) (style : list (string * string))
| P (children : list fragment)
| H3 (children : string)
| Img (src : string) (style : list (string * string))
| Table (children : list component) (className : string)
| Thead (children : component)
| Tbody (children : list component)
| Tr (children : list component)
| Th (children : string)
| Td (children : cell).

(** ** The program *)

(** The module-level dict of statistic definitions. *)
Definition definitions : list (string * string) :=
  [ ("Average Price", "The arithmetic mean of gold prices over a given period.");
    ("Minimum Price", "The lowest gold price over a given period.");
    ("Maximum Price", "The highest gold price over a given period.");
    ("First Quartile", "The value below which 25% of the lowest prices are found.");
    ("Median", "The middle value separating the lower half from the upper half of the data.");
    ("Third Quartile", "The value below which 75% of the lowest prices are found.");
    ("Mode", "The value that appears most frequently in the dataset.");
    ("Standard Deviation", "A measure of data dispersion around the mean value.");
    ("Interquartile Range", "The difference between the third and first quartile, indicating data dispersion.") ].

(** The three figures of the chart tab (lines 122-124). *)
Record ChartSummary : Type := mkChartSummary {
  chart_avg_price : num;
  chart_max_price : num;
  chart_min_price : num
}.

Definition chart_statistics (prices : list num) : ChartSummary :=
  let avg_price := round (Series_mean prices) 2 in
  let max_price := round (Series_max prices) 2 in
  let min_price := round (Series_min prices) 2 in
  mkChartSummary avg_price max_price min_price.

(** The nine figures of the analysis tab (lines 139-147). *)
Record Summary : Type := mkSummary {
  avg_price : num;
  min_price : num;
  max_price : num;
  q1 : num;
  q2 : num;
  q3 : num;
  mode : num;
  std_dev : num;
  iqr : num
}.

Definition analysis_statistics (prices : list num) : result Summary :=
  let avg_price := round (Series_mean prices) 2 in
  let min_price := round (Series_min prices) 2 in
  let max_price := round (Series_max prices) 2 in
  let q1 := round (Series_quantile prices 0.25) 2 in
  let q2 := round (Series_quantile prices 0.5) 2 in
  let q3 := round (Series_quantile prices 0.75) 2 in
  mode0 <- getitem0 (Series_mode prices) ;;
  let mode := round mode0 2 in
  let std_dev := round (Series_std prices) 2 in
  let iqr := round (num_sub q3 q1) 2 in
  ret (mkSummary avg_price min_price max_price q1 q2 q3 mode std_dev iqr).

(** A frame of named columns, as [pd.DataFrame(dict)] builds it. *)
Definition Frame : Type := list (string * list cell).

Definition columns (f : Frame) : list string := map fst f.

Definition frame_len (f : Frame) : nat :=
  match f with
  | [] => 0%nat
  | (_, c) :: _ => length c
  end.

(** [f.iloc[i][col]]. *)
Definition iloc (f : Frame) (i : nat) (col : string) : result cell :=
  column <- dict_get f col ;;
  match nth_error column i with
  | Some c => Ok c
  | None => Raise IndexError
  end.

(** The table of the analysis tab (lines 150-166). *)
Definition statistics_table (s : Summary) : result component :=
  let names :=
    ["Average Price"; "Minimum Price"; "Maximum Price"; "First Quartile"; "Median";
     "Third Quartile"; "Mode"; "Standard Deviation"; "Interquartile Range"] in
  defs <- mapM (dict_get definitions) names ;;
  let stats_df : Frame :=
    [ ("Statistic", map CStr names);
      ("Value", map CNum [avg_price s; min_price s; max_price s; q1 s; q2 s; q3 s;
                          mode s; std_dev s; iqr s]);
      ("Definition", map CStr defs) ] in
  rows <- mapM (fun i =>
                  tds <- mapM (fun col => c <- iloc stats_df i col ;; ret (Td c))
                              (columns stats_df) ;;
                  ret (Tr tds))
               (seq 0 (frame_len stats_df)) ;;
  ret (Table [ Thead (Tr (map Th (columns stats_df))); Tbody rows ] "table table-striped").

(** *** Sample library instances

    Concrete stand-ins for the three section parameters below, used to run
    the model on example inputs: a parser of zero-padded [YYYY-MM-DD], a
    [float] that reads the string nan and no other, and a fixed PNG text. *)

Definition digit (c : ascii) : option Z :=
  let n := nat_of_ascii c in
  if ((48 <=? n) && (n <=? 57))%nat then Some (Z.of_nat (n - 48)) else None.

Definition number (cs : list ascii) : option Z :=
  fold_left (fun acc c =>
               match acc, digit c with
               | Some a, Some d => Some (10 * a + d)%Z
               | _, _ => None
               end) cs (Some 0%Z).

Definition sample_strptime (s : string) : option date :=
  match list_ascii_of_string s with
  | [y1; y2; y3; y4; "-"%char; m1; m2; "-"%char; d1; d2] =>
      match number [y1; y2; y3; y4], number [m1; m2], number [d1; d2] with
      | Some y, Some m, Some d =>
          if ((1 <=? y) && (1 <=? m) && (m <=? 12) && (1 <=? d) && (d <=? 31))%Z
          then Some (mkDate y m d) else None
      | _, _, _ => None
      end
  | _ => None
  end.

Definition sample_float (s : string) : option num :=
  if String.eqb s "nan" then Some NaN else None.

Definition sample_png (dates : list Timestamp) (prices : list num) : string :=
  "iVBORw0KGgo=".

Section Dashboard.

(** [datetime.strptime(s, '%Y-%m-%d').date()]; [None] when it raises
    ValueError. *)
Variable strptime_date : string -> option date.

(** [float(s)] on a string, nan and inf included; [None] when it raises
    ValueError. *)
Variable float_of_str : string -> option num.

(** The base64 text of the PNG that matplotlib saves for the line plot of
    the two columns (labels, title, legend and grid are fixed). *)
Variable plot_png_base64 : list Timestamp -> list num -> string.

Definition strptime (v : json) : result date :=
  match v with
  | JStr s =>
      match strptime_date s with
      | Some d => Ok d
      | None => Raise ValueError
      end
  | _ => Raise TypeError
  end.

(** The builtin [float].  An int is rounded to the nearest float and is
    refused when that is beyond the largest one. *)
Definition float (v : json) : result num :=
  match v with
  | JFloat x => Ok x
  | JInt z =>
      match double (inject_Z z) with
      | Inf _ => Raise OverflowError
      | x => Ok x
      end
  | JBool b => Ok (Rat (if b then 1 else 0))
  | JStr s =>
      match float_of_str s with
      | Some x => Ok x
      | None => Raise ValueError
      end
  | JNull | JArr _ | JObj _ => Raise TypeError
  end.

(** The loop of lines 25-27, with the two lists it appends to. *)
Fixpoint process (items : list json) (dates : list date) (prices : list num)
  : result (list date * list num) :=
  match items with
  | [] => Ok (dates, prices)
  | item :: rest =>
      s <- getitem item "data" ;;
      d <- strptime s ;;
      c <- getitem item "cena" ;;
      p <- float c ;;
      process rest (dates ++ [d]) (prices ++ [p])
  end.

Definition api_url (start_date end_date : string) : string :=
  "https://api.nbp.pl/api/cenyzlota/" ++ start_date ++ "/" ++ end_date ++ "/".

Definition get_gold_data (start_date end_date : string) : M (option DataFrame) :=
  let url := api_url start_date end_date in
  try_except_RequestException
    (response <- requests_get url ;;
     lift (raise_for_status response) ;;;
     data <- lift (Response_json response) ;;
     items <- lift (iter data) ;;
     cols <- lift (process items [] []) ;;
     let df := mkDataFrame (to_datetime (fst cols)) (snd cols) in
     ret (Some df))
    (fun e =>
       print "Error fetching data: " e ;;;
       ret None).

Definition render_content (tab start_date end_date : string)
  : M (option (list component)) :=
  df <- get_gold_data start_date end_date ;;
  match df with
  | None =>
      ret (Some [Div [P [Lit "Error fetching data. Please try again later."]] None []])
  | Some df =>
      if String.eqb tab "gold" then
        let image_base64 := plot_png_base64 (Date df) (Price df) in
        let st := chart_statistics (Price df) in
        ret (Some
          [Div
             [ Img ("data:image/png;base64," ++ image_base64) [("width", "100%")];
               Div
                 [ P [Lit ("Data period: from " ++ start_date ++ " to " ++ end_date)];
                   P [Lit "Average Price: "; Val (chart_avg_price st); Lit " PLN"];
                   P [Lit "Maximum Price: "; Val (chart_max_price st); Lit " PLN"];
                   P [Lit "Minimum Price: "; Val (chart_min_price st); Lit " PLN"] ]
                 None [("textAlign", "center"); ("margin-top", "20px")] ]
             None []])
      else if String.eqb tab "analysis" then
        st <- lift (analysis_statistics (Price df)) ;;
        html_table <- lift (statistics_table st) ;;
        ret (Some
          [Div
             [ H3 "Gold Price Analysis";
               Div
                 [ P [Lit ("Data period: from " ++ start_date ++ " to " ++ end_date)];
                   html_table ]
                 (Some "analysis-table") [] ]
             None []])
      else ret None
  end.

(** One Dash event per element: the callback runs once for each change
    of the tab or of the date range; its output goes to the page. *)
Fixpoint run_callbacks (events : list (string * string * string)) (w : world) : world :=
  match events with
  | [] => w
  | (tab, start_date, end_date) :: rest =>
      run_callbacks rest (snd (render_content tab start_date end_date w))
  end.

(** The body of the [try] block after the GET (lines 19-32), as a function
    of the network's answer; [get_gold_data_unfold] relates it to
    [get_gold_data]. *)
Definition decode_response (response : Response) : result (option DataFrame) :=
  raise_for_status response ;;;
  data <- Response_json response ;;
  items <- iter data ;;
  cols <- process items [] [] ;;
  ret (Some (mkDataFrame (to_datetime (fst cols)) (snd cols))).

Definition decode (o : get_outcome) : result (option DataFrame) :=
  match o with
  | GetRaises msg => Raise (ConnectionError msg)
  | GetReturns response => decode_response response
  end.

(** A numeric price and the float it stands for: a JSON float, a JSON
    int whose nearest float is finite, or a string that [float] reads. *)
Inductive numeric_price : json -> num -> Prop :=
| price_float (x : num) : numeric_price (JFloat x) x
| price_int (z : Z) (r : Q) :
    double (inject_Z z) = Rat r -> numeric_price (JInt z) (Rat r)
| price_text (t : string) (x : num) :
    float_of_str t = Some x -> numeric_price (JStr t) x.

(** A well-formed element of the API's array: an object whose "data" is a
    date string in the expected format and whose "cena" is a numeric price. *)
Inductive record_of : json -> date * num -> Prop :=
| record_intro (fields : list (string * json)) (s : string) (d : date) (c : json) (p : num) :
    dict_get fields "data" = Ok (JStr s) ->
    strptime_date s = Some d ->
    dict_get fields "cena" = Ok c ->
    numeric_price c p ->
    record_of (JObj fields) (d, p).

End Dashboard.

Definition event_url (ev : string * string * string) : string :=
  match ev with
  | (_, start_date, end_date) => api_url start_date end_date
  end.

(** ** Specification vocabulary *)

(** Equality of float results up to the representation of the rational. *)
Definition num_eq (a b : num) : Prop :=
  match a, b with
  | Rat x, Rat y => x == y
  | Inf s, Inf t => s = t
  | NaN, NaN => True
  | _, _ => False
  end.

(** [reported] is [x] rounded to two decimals as binary64 arithmetic does
    it: the float nearest to [k / 100] for an integer [k] that is nearest
    to [100 x] up to the rounding error of that product; inf when the
    product overflows; inf and nan are kept. *)
Definition rounded_to_2 (x reported : num) : Prop :=
  match x with
  | Rat q =>
      (exists k : Z,
          reported = double (k # 100) /\
          Qabs (q * 100 - inject_Z k) <=
            (1 # 2) + Qabs (q * 100) * pow2 (-53) + pow2 (-1075)) \/
      (pow2 1023 <= Qabs (q * 100) /\ reported = Inf (negative q))
  | Inf s => reported = Inf s
  | NaN => reported = NaN
  end.

(** The same without allowance for the error of the product: [reported]
    is the float of a multiple of 0.01 nearest to the value of [x]. *)
Definition nearest_hundredth (x reported : num) : Prop :=
  match x with
  | Rat q => exists k : Z, reported = double (k # 100) /\ Qabs (q * 100 - inject_Z k) <= 1 # 2
  | _ => False
  end.

(** Every field of the summary is its statistic rounded to two decimals;
    the statistic behind the interquartile range is Q3 - Q1. *)
Definition all_nine_rounded (prices : list num) (st : Summary) : Prop :=
  rounded_to_2 (Series_mean prices) (avg_price st) /\
  rounded_to_2 (Series_min prices) (min_price st) /\
  rounded_to_2 (Series_max prices) (max_price st) /\
  rounded_to_2 (Series_quantile prices 0.25) (q1 st) /\
  rounded_to_2 (Series_quantile prices 0.5) (q2 st) /\
  rounded_to_2 (Series_quantile prices 0.75) (q3 st) /\
  (exists m rest, Series_mode prices = m :: rest /\ rounded_to_2 m (mode st)) /\
  rounded_to_2 (Series_std prices) (std_dev st) /\
  rounded_to_2 (num_sub (Series_quantile prices 0.75) (Series_quantile prices 0.25)) (iqr st).

(** [v] is a value of the column that no other value outnumbers. *)
Definition most_frequent (prices : list num) (v : num) : Prop :=
  (exists y, In y prices /\ num_eqb y v = true) /\
  forall y, In y prices -> (count y prices <= count v prices)%nat.

(** The column holds a value that is not nan. *)
Definition has_value (prices : list num) : Prop :=
  exists p, In p prices /\ isnan p = false.

(** A fetch failure in the wording of the error-handling design: the GET
    raised, the status is not 2xx, or the body is not JSON. *)
Definition fetch_failure (o : get_outcome) : Prop :=
  match o with
  | GetRaises _ => True
  | GetReturns r => ~ (200 <= status_code r < 300)%Z \/ body r = None
  end.

(** The failures the [except] clause sees: the GET raised, the status is
    4xx or 5xx, or the body is not JSON. *)
Definition request_error (o : get_outcome) : Prop :=
  match o with
  | GetRaises _ => True
  | GetReturns r => (400 <= status_code r < 600)%Z \/ body r = None
  end.

(** The world after the GET, with or without a console message. *)
Definition after_get (url : string) (w : world) (msgs : list (string * exn)) : world :=
  mkWorld (network w) (url :: requests_sent w) (msgs ++ printed w)%list.

(** What the callback returns when no data was fetched. *)
Definition error_message : list component :=
  [Div [P [Lit "Error fetching data. Please try again later."]] None []].

(** One row of the analysis table. *)
Definition stat_row (name : string) (value : num) (definition : string) : component :=
  Tr [Td (CStr name); Td (CNum value); Td (CStr definition)].

(** The nine rows in their fixed order. *)
Definition expected_rows (st : Summary) : list component :=
  [ stat_row "Average Price" (avg_price st)
      "The arithmetic mean of gold prices over a given period.";
    stat_row "Minimum Price" (min_price st)
      "The lowest gold price over a given period.";
    stat_row "Maximum Price" (max_price st)
      "The highest gold price over a given period.";
    stat_row "First Quartile" (q1 st)
      "The value below which 25% of the lowest prices are found.";
    stat_row "Median" (q2 st)
      "The middle value separating the lower half from the upper half of the data.";
    stat_row "Third Quartile" (q3 st)
      "The value below which 75% of the lowest prices are found.";
    stat_row "Mode" (mode st)
      "The value that appears most frequently in the dataset.";
    stat_row "Standard Deviation" (std_dev st)
      "A measure of data dispersion around the mean value.";
    stat_row "Interquartile Range" (iqr st)
      "The difference between the third and first quartile, indicating data dispersion." ].

(** *** Example inputs *)

(** The prices of the spec's worked example. *)
Definition test_prices : list num := map double [100; 200; 300; 400].

(** Two values tied for most frequent. *)
Definition tied_prices : list num := map double [3; 1; 3; 1; 2].

(** Quartiles 0.006 and 0.014 that round to the same hundredth. *)
Definition close_prices : list num := map double [0; 0.006; 0.01; 0.014; 0.02].

(** The most frequent value 0.004 is reported as 0.0, which occurs once. *)
Definition small_prices : list num := map double [0.004; 0.004; 0].

Definition api_item (d : string) (price : Q) : json :=
  JObj [("data", JStr d); ("cena", JFloat (double price))].

Definition four_days : json :=
  JArr [ api_item "2024-01-02" 100; api_item "2024-01-03" 200;
         api_item "2024-01-04" 300; api_item "2024-01-05" 400 ].

Definition four_dates : list Timestamp :=
  [ Midnight (mkDate 2024 1 2); Midnight (mkDate 2024 1 3);
    Midnight (mkDate 2024 1 4); Midnight (mkDate 2024 1 5) ].

(** An integer price too large for a float. *)
Definition huge_price : json :=
  JArr [JObj [("data", JStr "2024-01-02"); ("cena", JInt (10 ^ 400))]].

(** A network that answers every GET with the given status and body. *)
Definition answering (status : Z) (doc : option json) : string -> get_outcome :=
  fun _ => GetReturns (mkResponse status doc).

Definition unreachable : string -> get_outcome :=
  fun _ => GetRaises "Connection refused".

Definition fresh (net : string -> get_outcome) : world := mkWorld net [] [].

(** ** Vocabulary of the further properties *)

(** Order on float results; [nan] is comparable with nothing. *)
Definition num_le (a b : num) : Prop := num_leb a b = true.

(** [x] is a binary64 number: rounding leaves it as it is. *)
Definition binary64 (x : num) : Prop :=
  match x with
  | Rat q => double q = Rat q
  | _ => True
  end.

(** One turn of the loop of lines 25-27: the date and the price of one
    element, or the exception it raises. *)
Definition observation (strptime_date : string -> option date)
    (float_of_str : string -> option num) (item : json) : result (date * num) :=
  s <- getitem item "data" ;;
  d <- strptime strptime_date s ;;
  c <- getitem item "cena" ;;
  p <- float float_of_str c ;;
  ret (d, p).

(** What the chart tab returns for a frame (lines 126-136). *)
Definition chart_view (plot_png_base64 : list Timestamp -> list num -> string)
    (start_date end_date : string) (df : DataFrame) : list component :=
  let st := chart_statistics (Price df) in
  [Div
     [ Img ("data:image/png;base64," ++ plot_png_base64 (Date df) (Price df))
         [("width", "100%")];
       Div
         [ P [Lit ("Data period: from " ++ start_date ++ " to " ++ end_date)];
           P [Lit "Average Price: "; Val (chart_avg_price st); Lit " PLN"];
           P [Lit "Maximum Price: "; Val (chart_max_price st); Lit " PLN"];
           P [Lit "Minimum Price: "; Val (chart_min_price st); Lit " PLN"] ]
         None [("textAlign", "center"); ("margin-top", "20px")] ]
     None []].

(** What the analysis tab returns for a summary (lines 157-176). *)
Definition analysis_view (start_date end_date : string) (st : Summary) : list component :=
  [Div
     [ H3 "Gold Price Analysis";
       Div
         [ P [Lit ("Data period: from " ++ start_date ++ " to " ++ end_date)];
           Table
             [ Thead (Tr [Th "Statistic"; Th "Value"; Th "Definition"]);
               Tbody (expected_rows st) ]
             "table table-striped" ]
         (Some "analysis-table") [] ]
     None []].

(** The GET of an event meets a request error. *)
Definition failed_fetch (net : string -> get_outcome) (ev : string * string * string) : bool :=
  match net (event_url ev) with
  | GetRaises _ => true
  | GetReturns r =>
      ((400 <=? status_code r)%Z && (status_code r <? 600)%Z) ||
      match body r with None => true | Some _ => false end
  end.

(** *** The page (lines 54-94)

    The component tree assigned to [app.layout] and the wiring of the
    callback.  [today] is [date.today().strftime("%Y-%m-%d")], evaluated
    once, when the module is loaded. *)
Inductive layout_node : Type :=
| LDiv (id : option string) (children : list layout_node) (style : list (string * string))
| LH2 (children : string) (style : list (string * string))
| LLabel (children : string)
| LDatePickerRange (id start_date end_date display_format : string)
| LTabs (id : string) (children : list layout_node) (value : string)
| LTab (label value : string)
| LP (children : list layout_node)
| LText (s : string)
| LA (children href target : string).

Definition app_layout (today : string) : layout_node :=
  LDiv None
    [ LH2 "Gold Prices | Data from NBP!" [("textAlign", "center")];
      LDiv None
        [ LLabel "Select date range:";
          LDatePickerRange "date-picker-range" "2024-01-01" today "YYYY-MM-DD" ]
        [("textAlign", "center"); ("margin-bottom", "20px")];
      LTabs "tabs-1"
        [ LTab "Gold Chart for Selected Period" "gold";
          LTab "Gold Price Analysis" "analysis" ]
        "gold";
      LDiv (Some "div-1") [] [];
      LDiv None
        [ LP [LText "Created by Matasnet"];
          LP [LText "Link to my blog -> "; LA "Blog" "https://matasdata.blogspot.com" "_blank"];
          LP [LText "Data source: "; LA "NBP" "https://nbp.pl/en/" "_blank"] ]
        [("textAlign", "center"); ("padding", "10px"); ("left", "0"); ("bottom", "0");
         ("width", "100%"); ("backgroundColor", "#f1f1f1"); ("zIndex", "1")] ]
    [].

(** The [Output] and the [Input]s of the decorator (lines 90-95), each a
    component id and a property. *)
Definition callback_output : string * string := ("div-1", "children").

Definition callback_inputs : list (string * string) :=
  [("tabs-1", "value"); ("date-picker-range", "start_date"); ("date-picker-range", "end_date")].

(** The ids of a tree, in document order. *)
Fixpoint ids (n : layout_node) : list string :=
  match n with
  | LDiv (Some id) children _ => id :: flat_map ids children
  | LDiv None children _ => flat_map ids children
  | LDatePickerRange id _ _ _ => [id]
  | LTabs id children _ => id :: flat_map ids children
  | LP children => flat_map ids children
  | LH2 _ _ | LLabel _ | LTab _ _ | LText _ | LA _ _ _ => []
  end.

(** The string properties a callback can read: (id, property, value). *)
Fixpoint properties (n : layout_node) : list (string * string * string) :=
  match n with
  | LDiv _ children _ => flat_map properties children
  | LDatePickerRange id start_date end_date display_format =>
      [(id, "start_date", start_date); (id, "end_date", end_date);
       (id, "display_format", display_format)]
  | LTabs id children value => (id, "value", value) :: flat_map properties children
  | LP children => flat_map properties children
  | LH2 _ _ | LLabel _ | LTab _ _ | LText _ | LA _ _ _ => []
  end.

Definition get_property (n : layout_node) (id prop : string) : option string :=
  match find (fun p => String.eqb (fst (fst p)) id && String.eqb (snd (fst p)) prop)
             (properties n) with
  | Some p => Some (snd p)
  | None => None
  end.

(** The values the tab bar [id] can take: those of its [Tab] children. *)
Fixpoint tab_values (id : string) (n : layout_node) : list string :=
  match n with
  | LDiv _ children _ | LP children => flat_map (tab_values id) children
  | LTabs id' children _ =>
      if String.eqb id' id
      then flat_map (fun c => match c with LTab _ value => [value] | _ => [] end) children
      else flat_map (tab_values id) children
  | LH2 _ _ | LLabel _ | LDatePickerRange _ _ _ _ | LTab _ _ | LText _ | LA _ _ _ => []
  end.

(** Three elements of which the second has no price. *)
Definition second_without_price : json :=
  JArr ([api_item "2024-01-02" 100] ++
        JObj [("data", JStr "2024-01-03")] :: [api_item "2024-01-04" 300]).

(** One record whose price is the string nan. *)
Definition nan_price : json :=
  JArr [JObj [("data", JStr "2024-01-02"); ("cena", JStr "nan")]].

(** An error document in place of the array. *)
Definition error_document : json := JObj [("message", JStr "Brak danych")].

(** * Properties *)

(** ** Rounding to an integer *)

(** Turn the outcome of a comparison into the order it states. *)
Ltac Qcompare_prop H :=
  match type of H with
  | Qcompare _ _ = Eq => apply Qeq_alt in H
  | Qcompare _ _ = Lt => apply Qlt_alt in H
  | Qcompare _ _ = Gt => apply Qgt_alt in H
  end.

Lemma Qfloor_bounds (x : Q) :
  inject_Z (Qfloor x) <= x /\ x < inject_Z (Qfloor x) + 1.
Proof.
  split.
  - apply Qfloor_le.
  - pose proof (Qlt_floor x) as H. rewrite inject_Z_plus in H. exact H.
Qed.

Lemma rint_spec (x : Q) : Qabs (x - inject_Z (rint x)) <= 1 # 2.
Proof.
  destruct (Qfloor_bounds x) as [Hlo Hhi].
  apply Qabs_Qle_condition. unfold rint.
  destruct (Qcompare (x - inject_Z (Qfloor x)) (1 # 2)) eqn:E.
  - apply Qeq_alt in E.
    destruct (Z.even (Qfloor x)); [| rewrite inject_Z_plus];
      change (inject_Z 1) with 1; split; lra.
  - apply Qlt_alt in E. split; lra.
  - apply Qgt_alt in E. rewrite inject_Z_plus. change (inject_Z 1) with 1. split; lra.
Qed.

Lemma Zminus_inject (a b : Z) : inject_Z (a - b) == inject_Z a - inject_Z b.
Proof.
  replace (a - b)%Z with (a + - b)%Z by lia.
  rewrite inject_Z_plus, inject_Z_opp. reflexivity.
Qed.

Lemma rint_comp (x y : Q) : x == y -> rint x = rint y.
Proof.
  intros H. unfold rint. rewrite (Qfloor_comp _ _ H).
  assert (E : x - inject_Z (Qfloor y) == y - inject_Z (Qfloor y)) by (rewrite H; reflexivity).
  rewrite (Qcompare_comp _ _ E (1 # 2) (1 # 2) (Qeq_refl _)). reflexivity.
Qed.

Lemma rint_inject_Z (z : Z) : rint (inject_Z z) = z.
Proof.
  unfold rint. rewrite Qfloor_Z.
  assert (E : Qcompare (inject_Z z - inject_Z z) (1 # 2) = Lt).
  { apply Qlt_alt. setoid_replace (inject_Z z - inject_Z z) with 0 by ring. reflexivity. }
  rewrite E. reflexivity.
Qed.

Lemma rint_floor_or_next (x : Q) : rint x = Qfloor x \/ rint x = (Qfloor x + 1)%Z.
Proof.
  unfold rint. destruct (Qcompare _ _); [destruct (Z.even _) | |]; auto.
Qed.

Lemma rint_monotone (x y : Q) : x <= y -> (rint x <= rint y)%Z.
Proof.
  intros H. pose proof (Qfloor_resp_le _ _ H) as Hf.
  destruct (Z.eq_dec (Qfloor x) (Qfloor y)) as [E | N].
  - unfold rint. rewrite <- E.
    destruct (Qcompare (x - inject_Z (Qfloor x)) (1 # 2)) eqn:Cx;
      destruct (Qcompare (y - inject_Z (Qfloor x)) (1 # 2)) eqn:Cy;
      try (destruct (Z.even (Qfloor x))); try lia; exfalso;
      Qcompare_prop Cx; Qcompare_prop Cy; lra.
  - destruct (rint_floor_or_next x) as [-> | ->], (rint_floor_or_next y) as [-> | ->]; lia.
Qed.

(** Two integers less than 1 apart are equal. *)
Lemma inject_Z_close (a b : Z) : Qabs (inject_Z a - inject_Z b) < 1 -> a = b.
Proof.
  intros H. apply Qabs_Qlt_condition in H. destruct H as [H1 H2].
  rewrite <- Zminus_inject in H1, H2.
  change (-(1)) with (inject_Z (-1)) in H1. change 1 with (inject_Z 1) in H2.
  rewrite <- Zlt_Qlt in H1, H2. lia.
Qed.

(** The integer within less than one half of [x] is [rint x]. *)
Lemma rint_unique (x : Q) (k : Z) : Qabs (x - inject_Z k) < 1 # 2 -> rint x = k.
Proof.
  intros H. pose proof (rint_spec x) as R.
  apply inject_Z_close.
  apply Qabs_Qlt_condition in H. apply Qabs_Qle_condition in R.
  apply Qabs_Qlt_condition. split; lra.
Qed.

(** ** Powers of two and binades *)

Lemma pow2_pos (e : Z) : 0 < pow2 e.
Proof. apply Qpower_0_lt. reflexivity. Qed.

Lemma pow2_plus (a b : Z) : pow2 (a + b) == pow2 a * pow2 b.
Proof. apply Qpower_plus. discriminate. Qed.

Lemma pow2_le (a b : Z) : (a <= b)%Z -> pow2 a <= pow2 b.
Proof. intros H. apply Qpower_le_compat_l; [exact H | discriminate]. Qed.

Lemma pow2_lt (a b : Z) : (a < b)%Z -> pow2 a < pow2 b.
Proof. intros H. apply Qpower_lt_compat_l; [exact H | reflexivity]. Qed.

Lemma pow2_succ (a : Z) : pow2 (a + 1) == 2 * pow2 a.
Proof. rewrite pow2_plus. unfold pow2 at 2. rewrite Qpower_1_r. ring. Qed.

Lemma pow2_pred (a : Z) : pow2 (a - 1) == pow2 a / 2.
Proof.
  assert (E : pow2 a == 2 * pow2 (a - 1)).
  { rewrite <- pow2_succ. replace (a - 1 + 1)%Z with a by lia. reflexivity. }
  rewrite E. field.
Qed.

Lemma pow2_inject (e : Z) : (0 <= e)%Z -> pow2 e == inject_Z (2 ^ e).
Proof. intros H. unfold pow2. rewrite Zpower_Qpower by exact H. reflexivity. Qed.

(** A positive rational lies in the binade [ilog2] names. *)
Lemma ilog2_spec (q : Q) : 0 < q -> pow2 (ilog2 q) <= q /\ q < pow2 (ilog2 q + 1).
Proof.
  intros Hq. destruct q as [n d]. unfold ilog2. cbn [Qnum Qden].
  assert (Hn : (0 < n)%Z) by (unfold Qlt in Hq; cbn in Hq; lia).
  pose proof (Z.log2_spec n Hn) as [Hn1 Hn2].
  pose proof (Z.log2_spec (Zpos d) (Pos2Z.is_pos d)) as [Hd1 Hd2].
  pose proof (Z.log2_nonneg n) as Hna. pose proof (Z.log2_nonneg (Zpos d)) as Hda.
  set (a := Z.log2 n) in *. set (b := Z.log2 (Zpos d)) in *.
  assert (Q1 : pow2 a <= inject_Z n).
  { rewrite pow2_inject by lia. rewrite <- Zle_Qle. exact Hn1. }
  assert (Q2 : inject_Z n < pow2 (a + 1)).
  { rewrite pow2_inject by lia. rewrite <- Zlt_Qlt. exact Hn2. }
  assert (Q3 : pow2 b <= inject_Z (Zpos d)).
  { rewrite pow2_inject by lia. rewrite <- Zle_Qle. exact Hd1. }
  assert (Q4 : inject_Z (Zpos d) < pow2 (b + 1)).
  { rewrite pow2_inject by lia. rewrite <- Zlt_Qlt. exact Hd2. }
  assert (Ed : 0 < inject_Z (Zpos d)) by reflexivity.
  assert (Eq : n # d == inject_Z n / inject_Z (Zpos d)) by apply Qmake_Qdiv.
  assert (Up : n # d < pow2 (a - b + 1)).
  { rewrite Eq. apply Qlt_shift_div_r; [exact Ed|].
    apply Qlt_le_trans with (pow2 (a + 1)); [exact Q2|].
    replace (a + 1)%Z with ((a - b + 1) + b)%Z by lia. rewrite pow2_plus.
    apply Qmult_le_l; [apply pow2_pos | exact Q3]. }
  assert (Lo : pow2 (a - b - 1) < n # d).
  { rewrite Eq. apply Qlt_shift_div_l; [exact Ed|].
    apply Qlt_le_trans with (pow2 a); [| exact Q1].
    replace a with ((a - b - 1) + (b + 1))%Z at 2 by lia. rewrite pow2_plus.
    apply Qmult_lt_l; [apply pow2_pos | exact Q4]. }
  destruct (Qle_bool (pow2 (a - b)) (n # d)) eqn:C.
  - apply Qle_bool_iff in C. split; assumption.
  - assert (C' : n # d < pow2 (a - b)).
    { apply Qnot_le_lt. intros H. apply Qle_bool_iff in H. congruence. }
    split; [apply Qlt_le_weak, Lo|].
    replace (a - b - 1 + 1)%Z with (a - b)%Z by lia. exact C'.
Qed.

(** The binade of a positive rational is unique. *)
Lemma binade_unique (q : Q) (e e' : Z) :
  pow2 e <= q -> q < pow2 (e + 1) -> pow2 e' <= q -> q < pow2 (e' + 1) -> e = e'.
Proof.
  intros H1 H2 H3 H4.
  destruct (Z.lt_trichotomy e e') as [L | [E | L]]; [exfalso | exact E | exfalso].
  - pose proof (pow2_le (e + 1) e' ltac:(lia)). lra.
  - pose proof (pow2_le (e' + 1) e ltac:(lia)). lra.
Qed.

Lemma ilog2_comp (q q' : Q) : 0 < q -> q == q' -> ilog2 q = ilog2 q'.
Proof.
  intros Hq E. assert (Hq' : 0 < q') by (rewrite <- E; exact Hq).
  destruct (ilog2_spec q Hq) as [A B]. destruct (ilog2_spec q' Hq') as [C D].
  apply (binade_unique q _ _ A B).
  - rewrite E. exact C.
  - rewrite E. exact D.
Qed.

(** ** Rounding to binary64 *)

Lemma scaled_cases (m s : Z) :
  (scaled m s = Rat (Qred (inject_Z m * pow2 s)) /\ Qabs (inject_Z m * pow2 s) < pow2 1024) \/
  (scaled m s = Inf (m <? 0)%Z /\ pow2 1024 <= Qabs (inject_Z m * pow2 s)).
Proof.
  unfold scaled. destruct (Qle_bool (pow2 1024) (Qabs (inject_Z m * pow2 s))) eqn:C.
  - right. split; [reflexivity | apply Qle_bool_iff, C].
  - left. split; [reflexivity|].
    apply Qnot_le_lt. intros H. apply Qle_bool_iff in H. congruence.
Qed.

(** The scaled significand is within half a unit of the last place. *)
Lemma significand_error (q : Q) (s : Z) :
  Qabs (inject_Z (rint (q / pow2 s)) * pow2 s - q) <= pow2 s * (1 # 2).
Proof.
  pose proof (pow2_pos s) as Hp. pose proof (rint_spec (q / pow2 s)) as R.
  set (m := inject_Z (rint (q / pow2 s))) in *.
  assert (E : q == (q / pow2 s) * pow2 s) by (field; lra).
  set (t := q / pow2 s) in *.
  apply Qabs_Qle_condition in R. destruct R as [R1 R2].
  apply Qabs_Qle_condition. rewrite E. split; nra.
Qed.

Lemma Qabs_nonzero_pos (q : Q) : ~ q == 0 -> 0 < Qabs q.
Proof.
  intros Hq. destruct (Qlt_le_dec 0 (Qabs q)) as [H | H]; [exact H|].
  exfalso. apply Hq. apply Qabs_Qle_condition in H. lra.
Qed.

Lemma ulp_bound (q : Q) :
  ~ q == 0 ->
  pow2 (ulp_exponent (ilog2 (Qabs q))) <= Qabs q * pow2 (-52) + pow2 (-1074).
Proof.
  intros Hq.
  pose proof (Qabs_nonzero_pos q Hq) as Ha.
  destruct (ilog2_spec (Qabs q) Ha) as [L _].
  pose proof (pow2_pos (-52)) as P1. pose proof (pow2_pos (-1074)) as P2.
  unfold ulp_exponent.
  destruct (Z.max_spec (ilog2 (Qabs q) - 52) (-1074)) as [[_ ->] | [_ ->]].
  - nra.
  - replace (ilog2 (Qabs q) - 52)%Z with (ilog2 (Qabs q) + -52)%Z by lia.
    rewrite pow2_plus. nra.
Qed.

Lemma negative_spec (q : Q) : negative q = true <-> q < 0.
Proof.
  unfold negative. rewrite andb_true_iff, negb_true_iff, Qle_bool_iff.
  split.
  - intros [H1 H2]. apply Qle_lt_or_eq in H1. destruct H1 as [H1 | H1]; [exact H1|].
    apply Qeq_bool_iff in H1. congruence.
  - intros H. split; [apply Qlt_le_weak, H|].
    destruct (Qeq_bool q 0) eqn:E; [| reflexivity].
    apply Qeq_bool_iff in E. lra.
Qed.

Lemma negative_false (q : Q) : negative q = false <-> 0 <= q.
Proof.
  split.
  - intros H. apply Qnot_lt_le. intros L. apply negative_spec in L. congruence.
  - intros H. destruct (negative q) eqn:E; [| reflexivity].
    apply negative_spec in E. lra.
Qed.

Lemma double_zero (q : Q) : q == 0 -> double q = Rat 0.
Proof.
  intros H. unfold double.
  set (s := ulp_exponent (ilog2 (Qabs q))).
  assert (E : rint (q / pow2 s) = 0%Z).
  { rewrite <- (rint_inject_Z 0). apply rint_comp. rewrite H.
    pose proof (pow2_pos s). change (inject_Z 0) with 0. field; lra. }
  rewrite E. unfold scaled.
  assert (Z0 : inject_Z 0 * pow2 s == 0) by (change (inject_Z 0) with 0; ring).
  assert (C : Qle_bool (pow2 1024) (Qabs (inject_Z 0 * pow2 s)) = false).
  { destruct (Qle_bool _ _) eqn:C; [| reflexivity].
    apply Qle_bool_iff in C. rewrite Z0 in C. pose proof (pow2_pos 1024).
    change (Qabs 0) with 0 in C. lra. }
  rewrite C. rewrite (Qred_complete _ _ Z0). reflexivity.
Qed.

(** [double] depends only on the value of the rational, and its result
    has one representation. *)
Lemma double_comp (q q' : Q) : q == q' -> double q = double q'.
Proof.
  intros E. destruct (Qeq_dec q 0) as [Z | N].
  - rewrite (double_zero q Z), (double_zero q'); [reflexivity | rewrite <- E; exact Z].
  - unfold double.
    assert (Ea : Qabs q == Qabs q') by (rewrite E; reflexivity).
    rewrite (ilog2_comp (Qabs q) (Qabs q') (Qabs_nonzero_pos q N) Ea).
    set (s := ulp_exponent (ilog2 (Qabs q'))).
    assert (Er : rint (q / pow2 s) = rint (q' / pow2 s)).
    { apply rint_comp. rewrite E. reflexivity. }
    rewrite Er. reflexivity.
Qed.

Lemma pow2_m53 : pow2 (-53) == pow2 (-52) * (1 # 2).
Proof. rewrite <- (pow2_pred (-52)). reflexivity. Qed.

Lemma pow2_m1075 : pow2 (-1075) == pow2 (-1074) * (1 # 2).
Proof. rewrite <- (pow2_pred (-1074)). reflexivity. Qed.

(** What [double] returns: a number within half a unit of the last place,
    that is within the relative error [2^-53] (plus [2^-1075] in the
    subnormal range), or inf for an argument of magnitude [2^1023] or more
    that rounds beyond the largest finite number. *)
Lemma double_cases (q : Q) :
  (exists r, double q = Rat r /\ Qabs (r - q) <= Qabs q * pow2 (-53) + pow2 (-1075)) \/
  (double q = Inf (negative q) /\ pow2 1023 <= Qabs q).
Proof.
  pose proof (pow2_pos (-53)) as P53. pose proof (pow2_pos (-1075)) as P1075.
  destruct (Qeq_dec q 0) as [Z | N].
  { left. exists 0. split; [apply double_zero, Z|].
    setoid_replace (0 - q) with 0 by (rewrite Z; ring). change (Qabs 0) with 0.
    pose proof (Qabs_nonneg q). nra. }
  pose proof (significand_error q (ulp_exponent (ilog2 (Qabs q)))) as S.
  pose proof (ulp_bound q N) as U.
  unfold double. set (s := ulp_exponent (ilog2 (Qabs q))) in *.
  set (m := rint (q / pow2 s)) in *.
  assert (D : Qabs (inject_Z m * pow2 s - q) <= Qabs q * pow2 (-53) + pow2 (-1075)).
  { rewrite pow2_m53, pow2_m1075. lra. }
  destruct (scaled_cases m s) as [[-> _] | [-> B]].
  - left. eexists. split; [reflexivity|]. rewrite Qred_correct. exact D.
  - right.
    assert (T : Qabs (inject_Z m * pow2 s) - Qabs q <= Qabs (inject_Z m * pow2 s - q))
      by apply Qabs_triangle_reverse.
    assert (H24 : pow2 1024 == 2 * pow2 1023) by (rewrite <- pow2_succ; reflexivity).
    assert (H53 : pow2 (-53) <= 1 # 2) by (apply (pow2_le (-53) (-1)); lia).
    assert (H75 : pow2 (-1075) <= pow2 1023 * (1 # 4)).
    { setoid_replace (pow2 1023 * (1 # 4)) with (pow2 1021).
      - apply pow2_le. lia.
      - replace 1023%Z with (1021 + 2)%Z by lia. rewrite pow2_plus.
        change (pow2 2) with 4. field. }
    pose proof (pow2_pos 1023) as P1023. pose proof (Qabs_nonneg q) as A0.
    assert (Big : pow2 1023 <= Qabs q).
    { apply Qnot_lt_le. intros L. nra. }
    split; [| exact Big]. f_equal.
    pose proof (pow2_pos s) as Ps.
    destruct (Qlt_le_dec q 0) as [Hneg | Hpos].
    + rewrite (proj2 (negative_spec q) Hneg). apply Z.ltb_lt.
      assert (M : (m <= 0)%Z).
      { rewrite <- (rint_inject_Z 0). apply rint_monotone.
        change (inject_Z 0) with 0. apply Qle_shift_div_r; [exact Ps | lra]. }
      assert (M0 : m <> 0%Z).
      { intros E0. rewrite E0 in B.
        setoid_replace (inject_Z 0 * pow2 s) with 0 in B by (change (inject_Z 0) with 0; ring).
        change (Qabs 0) with 0 in B. pose proof (pow2_pos 1024). lra. }
      lia.
    + rewrite (proj2 (negative_false q) Hpos). apply Z.ltb_ge.
      rewrite <- (rint_inject_Z 0). apply rint_monotone.
      change (inject_Z 0) with 0. apply Qle_shift_div_l; [exact Ps | lra].
Qed.

(** Below [2^1023] in magnitude the result is finite. *)
Lemma double_finite (q : Q) :
  Qabs q < pow2 1023 ->
  exists r, double q = Rat r /\ Qabs (r - q) <= Qabs q * pow2 (-53) + pow2 (-1075).
Proof.
  intros H. destruct (double_cases q) as [F | [_ B]]; [exact F | lra].
Qed.

(** ** round(x, 2) *)

Lemma double_100 : double (inject_Z (10 ^ Z.of_nat 2)) = Rat 100.
Proof. vm_compute. reflexivity. Qed.

Lemma round_2_unfold (q : Q) :
  round (Rat q) 2 =
  match double (q * 100) with
  | Rat y => double (rint y # 100)
  | Inf s => Inf s
  | NaN => NaN
  end.
Proof.
  unfold round. rewrite double_100. cbn [num_mul].
  destruct (double (q * 100)) as [y | s |]; cbn [num_rint num_div].
  - change (Qeq_bool 100 0) with false. cbv iota.
    apply double_comp. rewrite (Qmake_Qdiv (rint y) 100). reflexivity.
  - change (negative 100) with false. rewrite xorb_false_r. reflexivity.
  - reflexivity.
Qed.

Lemma negative_scale (q : Q) : negative (q * 100) = negative q.
Proof.
  destruct (negative q) eqn:E.
  - apply negative_spec in E. apply negative_spec. lra.
  - apply negative_false in E. apply negative_false. lra.
Qed.

Lemma round_2_spec (x : num) : rounded_to_2 x (round x 2).
Proof.
  destruct x as [q | s |]; cbn [rounded_to_2].
  - rewrite round_2_unfold.
    destruct (double_cases (q * 100)) as [(y & -> & D) | [-> B]].
    + left. exists (rint y). split; [reflexivity|].
      pose proof (rint_spec y) as R.
      apply Qabs_Qle_condition in R. apply Qabs_Qle_condition in D.
      apply Qabs_Qle_condition. split; lra.
    + right. split; [exact B | rewrite negative_scale; reflexivity].
  - unfold round. rewrite double_100. cbn. rewrite !xorb_false_r. reflexivity.
  - reflexivity.
Qed.

Lemma pow2_m53_value : pow2 (-53) == 1 # 9007199254740992.
Proof. vm_compute. reflexivity. Qed.

Lemma pow2_m1075_small : pow2 (-1075) <= 1 # 1152921504606846976.
Proof.
  apply Qle_trans with (pow2 (-60)); [apply pow2_le; lia|].
  vm_compute. discriminate.
Qed.

Lemma pow2_1023_large : 1125899906842624 * 1024 <= pow2 1023.
Proof.
  apply Qle_trans with (pow2 60); [vm_compute; discriminate | apply pow2_le; lia].
Qed.

(** A float with two decimals, of magnitude up to [2^50 / 100], is left as
    it is. *)
Lemma round_2_fixes_hundredths (k : Z) :
  (Z.abs k <= 2 ^ 50)%Z -> round (double (k # 100)) 2 = double (k # 100).
Proof.
  intros Hk.
  pose proof pow2_m53_value as A. pose proof pow2_m1075_small as B.
  pose proof (pow2_pos (-1075)) as B0. pose proof pow2_1023_large as L.
  assert (HK : - (1125899906842624) <= inject_Z k /\ inject_Z k <= 1125899906842624).
  { change 1125899906842624 with (inject_Z (2 ^ 50)).
    rewrite <- inject_Z_opp, <- !Zle_Qle. lia. }
  assert (EK : k # 100 == inject_Z k * (1 # 100)).
  { rewrite (Qmake_Qdiv k 100). field. }
  remember (inject_Z k) as K eqn:HeqK. remember (k # 100) as x eqn:Heqx.
  assert (AK : Qabs x <= 1125899906842624 * (1 # 100)).
  { apply Qabs_Qle_condition. split; lra. }
  pose proof (Qabs_nonneg x) as AK0.
  destruct (double_finite x) as (r & Er & Dr); [lra|].
  rewrite Er. rewrite round_2_unfold.
  rewrite A in Dr. apply Qabs_Qle_condition in Dr.
  assert (Ar : Qabs (r * 100) <= 1125899906842624 + 1).
  { apply Qabs_Qle_condition. split; lra. }
  pose proof (Qabs_nonneg (r * 100)) as Ar0.
  destruct (double_finite (r * 100)) as (y & Ey & Dy); [lra|].
  rewrite Ey. rewrite A in Dy. apply Qabs_Qle_condition in Dy.
  assert (Ry : rint y = k).
  { apply rint_unique. rewrite <- HeqK. apply Qabs_Qlt_condition. split; lra. }
  rewrite Ry, <- Heqx, <- Er. reflexivity.
Qed.

(** ** Rounding to binary64 is monotone *)

Lemma double_unfold (q : Q) :
  double q = scaled (rint (q / pow2 (ulp_exponent (ilog2 (Qabs q)))))
                    (ulp_exponent (ilog2 (Qabs q))).
Proof. reflexivity. Qed.

(** Scaled integers compare as their values do. *)
Lemma scaled_leb (m s m' s' : Z) :
  inject_Z m * pow2 s <= inject_Z m' * pow2 s' ->
  num_leb (scaled m s) (scaled m' s') = true.
Proof.
  intros H. pose proof (pow2_pos s) as Ps. pose proof (pow2_pos s') as Ps'.
  pose proof (pow2_pos 1024) as P.
  assert (Sm : (m < 0)%Z -> inject_Z m * pow2 s < 0).
  { intros L. assert (inject_Z m < 0) by (change 0 with (inject_Z 0); rewrite <- Zlt_Qlt; exact L). nra. }
  assert (Sm0 : (0 <= m)%Z -> 0 <= inject_Z m * pow2 s).
  { intros L. assert (0 <= inject_Z m) by (change 0 with (inject_Z 0); rewrite <- Zle_Qle; exact L). nra. }
  assert (Sk : (m' < 0)%Z -> inject_Z m' * pow2 s' < 0).
  { intros L. assert (inject_Z m' < 0) by (change 0 with (inject_Z 0); rewrite <- Zlt_Qlt; exact L). nra. }
  assert (Sk0 : (0 <= m')%Z -> 0 <= inject_Z m' * pow2 s').
  { intros L. assert (0 <= inject_Z m') by (change 0 with (inject_Z 0); rewrite <- Zle_Qle; exact L). nra. }
  set (r := inject_Z m * pow2 s) in *. set (r' := inject_Z m' * pow2 s') in *.
  destruct (scaled_cases m s) as [[-> A] | [-> A]], (scaled_cases m' s') as [[-> B] | [-> B]];
    fold r in A; fold r' in B; cbn [num_leb].
  - apply Qle_bool_iff. rewrite !Qred_correct. exact H.
  - apply negb_true_iff, Z.ltb_ge. apply Z.le_ngt. intros L. specialize (Sk L).
    apply Qabs_Qlt_condition in A. rewrite (Qabs_neg r') in B by lra. lra.
  - apply Z.ltb_lt. apply Z.lt_nge. intros L. specialize (Sm0 L).
    apply Qabs_Qlt_condition in B. rewrite (Qabs_pos r) in A by lra. lra.
  - destruct (m <? 0)%Z eqn:E; [reflexivity|]. cbn. apply negb_true_iff, Z.ltb_ge.
    apply Z.ltb_ge in E. specialize (Sm0 E).
    apply Z.le_ngt. intros L. specialize (Sk L). lra.
Qed.

Lemma rint_le_grid (x : Q) (k : Z) : x <= inject_Z k -> (rint x <= k)%Z.
Proof. intros H. rewrite <- (rint_inject_Z k). apply rint_monotone, H. Qed.

Lemma rint_ge_grid (x : Q) (k : Z) : inject_Z k <= x -> (k <= rint x)%Z.
Proof. intros H. rewrite <- (rint_inject_Z k). apply rint_monotone, H. Qed.

(** A power of two on a finer grid. *)
Lemma pow2_on_grid (e s : Z) : (s <= e)%Z -> pow2 e == inject_Z (2 ^ (e - s)) * pow2 s.
Proof.
  intros H. rewrite <- pow2_inject by lia. rewrite <- pow2_plus.
  replace (e - s + s)%Z with e by lia. reflexivity.
Qed.

Lemma ulp_exponent_le (e : Z) : (ulp_exponent e <= Z.max e (-1074))%Z.
Proof. unfold ulp_exponent. lia. Qed.

Lemma value_le (m k s : Z) : (m <= k)%Z -> inject_Z m * pow2 s <= inject_Z k * pow2 s.
Proof.
  intros H. pose proof (pow2_pos s). rewrite Zle_Qle in H. nra.
Qed.

Lemma double_monotone (x y : Q) : x <= y -> num_leb (double x) (double y) = true.
Proof.
  intros H. rewrite (double_unfold x), (double_unfold y). apply scaled_leb.
  set (ex := ilog2 (Qabs x)). set (ey := ilog2 (Qabs y)).
  set (sx := ulp_exponent ex). set (sy := ulp_exponent ey).
  pose proof (pow2_pos sx) as Px. pose proof (pow2_pos sy) as Py.
  set (mx := rint (x / pow2 sx)). set (my := rint (y / pow2 sy)).
  destruct (Qeq_dec x 0) as [X0 | X0].
  { (* x is zero *)
    assert (E : mx = 0%Z).
    { unfold mx. rewrite <- (rint_inject_Z 0). apply rint_comp. rewrite X0.
      change (inject_Z 0) with 0. field; lra. }
    rewrite E. change (inject_Z 0) with 0.
    assert (M : (0 <= my)%Z).
    { apply rint_ge_grid. change (inject_Z 0) with 0.
      apply Qle_shift_div_l; [exact Py | lra]. }
    rewrite Zle_Qle in M. change (inject_Z 0) with 0 in M. nra. }
  destruct (Qeq_dec y 0) as [Y0 | Y0].
  { assert (E : my = 0%Z).
    { unfold my. rewrite <- (rint_inject_Z 0). apply rint_comp. rewrite Y0.
      change (inject_Z 0) with 0. field; lra. }
    rewrite E. change (inject_Z 0) with 0.
    assert (M : (mx <= 0)%Z).
    { apply rint_le_grid. change (inject_Z 0) with 0.
      apply Qle_shift_div_r; [exact Px | lra]. }
    rewrite Zle_Qle in M. change (inject_Z 0) with 0 in M. nra. }
  destruct (ilog2_spec (Qabs x) (Qabs_nonzero_pos x X0)) as [Lx Ux]. fold ex in Lx, Ux.
  destruct (ilog2_spec (Qabs y) (Qabs_nonzero_pos y Y0)) as [Ly Uy]. fold ey in Ly, Uy.
  destruct (Z.lt_trichotomy sx sy) as [S | [S | S]].
  - (* the binade of y is above that of x: y is positive *)
    assert (Ey : sy = (ey - 52)%Z /\ (ex < ey)%Z) by (unfold sx, sy, ulp_exponent in *; lia).
    destruct Ey as [Ey Exy].
    assert (Ypos : 0 < y).
    { apply Qnot_le_lt. intros Yn.
      assert (A : Qabs y <= Qabs x).
      { rewrite (Qabs_neg y), (Qabs_neg x) by lra. lra. }
      pose proof (pow2_le (ex + 1) ey ltac:(lia)). lra. }
    assert (Bx : Qabs x < pow2 ey).
    { apply Qlt_le_trans with (pow2 (ex + 1)); [exact Ux | apply pow2_le; lia]. }
    assert (Xb : x <= pow2 ey).
    { pose proof (Qle_Qabs x). lra. }
    assert (Yb : pow2 ey <= y) by (rewrite (Qabs_pos y) in Ly by lra; exact Ly).
    assert (G1 : pow2 ey == inject_Z (2 ^ (ey - sx)) * pow2 sx) by (apply pow2_on_grid; lia).
    assert (G2 : pow2 ey == inject_Z (2 ^ (ey - sy)) * pow2 sy) by (apply pow2_on_grid; lia).
    apply Qle_trans with (pow2 ey).
    + rewrite G1. apply value_le. apply rint_le_grid.
      apply Qle_shift_div_r; [exact Px|]. rewrite <- G1. exact Xb.
    + rewrite G2 at 1. apply value_le. apply rint_ge_grid.
      apply Qle_shift_div_l; [exact Py|]. rewrite <- G2. exact Yb.
  - (* the same grid *)
    rewrite <- S. apply value_le. apply rint_monotone. fold sx. rewrite <- S.
    apply Qmult_le_compat_r; [exact H|]. apply Qlt_le_weak, Qinv_lt_0_compat, Px.
  - (* the binade of x is above that of y: x is negative *)
    assert (Ex : sx = (ex - 52)%Z /\ (ey < ex)%Z) by (unfold sx, sy, ulp_exponent in *; lia).
    destruct Ex as [Ex Eyx].
    assert (Xneg : x < 0).
    { apply Qnot_le_lt. intros Xp.
      assert (A : Qabs x <= Qabs y).
      { rewrite (Qabs_pos y), (Qabs_pos x) by lra. lra. }
      pose proof (pow2_le (ey + 1) ex ltac:(lia)). lra. }
    assert (By : Qabs y < pow2 ex).
    { apply Qlt_le_trans with (pow2 (ey + 1)); [exact Uy | apply pow2_le; lia]. }
    assert (Yb : - pow2 ex <= y).
    { pose proof (Qle_Qabs (- y)). rewrite Qabs_opp in H0. lra. }
    assert (Xb : x <= - pow2 ex) by (rewrite (Qabs_neg x) in Lx by lra; lra).
    assert (G1 : pow2 ex == inject_Z (2 ^ (ex - sx)) * pow2 sx) by (apply pow2_on_grid; lia).
    assert (G2 : pow2 ex == inject_Z (2 ^ (ex - sy)) * pow2 sy) by (apply pow2_on_grid; lia).
    assert (N1 : - pow2 ex == inject_Z (- 2 ^ (ex - sx)) * pow2 sx).
    { rewrite inject_Z_opp. rewrite G1 at 1. ring. }
    assert (N2 : - pow2 ex == inject_Z (- 2 ^ (ex - sy)) * pow2 sy).
    { rewrite inject_Z_opp. rewrite G2 at 1. ring. }
    apply Qle_trans with (- pow2 ex).
    + rewrite N1 at 1. apply value_le. apply rint_le_grid.
      apply Qle_shift_div_r; [exact Px|]. rewrite <- N1. exact Xb.
    + rewrite N2 at 1. apply value_le. apply rint_ge_grid.
      apply Qle_shift_div_l; [exact Py|]. rewrite <- N2. exact Yb.
Qed.

Lemma scaled_not_nan (m s : Z) : isnan (scaled m s) = false.
Proof. destruct (scaled_cases m s) as [[-> _] | [-> _]]; reflexivity. Qed.

Lemma double_not_nan (q : Q) : isnan (double q) = false.
Proof. rewrite double_unfold. apply scaled_not_nan. Qed.

Lemma num_leb_inf_r (x : num) : isnan x = false -> num_leb x (Inf false) = true.
Proof. destruct x as [q | [|] |]; cbn; auto. Qed.

Lemma num_leb_inf_l (x : num) : isnan x = false -> num_leb (Inf true) x = true.
Proof. destruct x as [q | [|] |]; cbn; auto. Qed.

Lemma round_2_inf (s : bool) : round (Inf s) 2 = Inf s.
Proof. unfold round. rewrite double_100. cbn. rewrite !xorb_false_r. reflexivity. Qed.

Lemma round_2_nan : round NaN 2 = NaN.
Proof. unfold round. rewrite double_100. reflexivity. Qed.

Lemma round_2_not_nan (x : num) : isnan x = false -> isnan (round x 2) = false.
Proof.
  destruct x as [q | s |]; [| rewrite round_2_inf; auto | discriminate]. intros _.
  rewrite round_2_unfold. pose proof (double_not_nan (q * 100)) as N.
  destruct (double (q * 100)); [apply double_not_nan | reflexivity | discriminate N].
Qed.

Lemma hundredths_le (a b : Z) : (a <= b)%Z -> a # 100 <= b # 100.
Proof. intros H. unfold Qle. cbn. lia. Qed.

(** [round(., 2)] keeps the order of floats. *)
Lemma round_2_monotone (x y : num) :
  num_leb x y = true -> num_leb (round x 2) (round y 2) = true.
Proof.
  destruct x as [p | s |], y as [q | t |]; cbn [num_leb]; try discriminate.
  - rewrite Qle_bool_iff. intros H. rewrite !round_2_unfold.
    assert (M : num_leb (double (p * 100)) (double (q * 100)) = true).
    { apply double_monotone. lra. }
    destruct (double (p * 100)) as [a | s |], (double (q * 100)) as [b | t |];
      cbn [num_leb] in M; try discriminate M.
    + apply double_monotone, hundredths_le, rint_monotone. apply Qle_bool_iff, M.
    + destruct t; [discriminate M|]. apply num_leb_inf_r, double_not_nan.
    + destruct s; [| discriminate M]. apply num_leb_inf_l, double_not_nan.
    + exact M.
  - intros H. rewrite round_2_inf. destruct t; [discriminate H|].
    apply num_leb_inf_r, round_2_not_nan. reflexivity.
  - intros H. rewrite round_2_inf. destruct s; [| discriminate H].
    apply num_leb_inf_l, round_2_not_nan. reflexivity.
  - intros H. rewrite !round_2_inf. exact H.
Qed.

(** ** Order and equality of floats *)

Lemma num_eqb_refl (x : num) : isnan x = false -> num_eqb x x = true.
Proof.
  destruct x as [q | s |]; cbn; intros H; [| apply eqb_reflx | discriminate].
  apply Qeq_bool_iff. reflexivity.
Qed.

Lemma num_eqb_sym (x y : num) : num_eqb x y = num_eqb y x.
Proof.
  destruct x as [p | s |], y as [q | t |]; cbn; try reflexivity.
  - destruct (Qeq_bool p q) eqn:A, (Qeq_bool q p) eqn:B; try reflexivity.
    + apply Qeq_bool_iff in A. symmetry in A. apply Qeq_bool_iff in A. congruence.
    + apply Qeq_bool_iff in B. symmetry in B. apply Qeq_bool_iff in B. congruence.
  - destruct s, t; reflexivity.
Qed.

Lemma num_eqb_trans (x y z : num) :
  num_eqb x y = true -> num_eqb y z = true -> num_eqb x z = true.
Proof.
  destruct x as [p | s |], y as [q | t |], z as [r | u |]; cbn; try discriminate.
  - rewrite !Qeq_bool_iff. intros A B. rewrite A. exact B.
  - destruct s, t, u; auto.
Qed.

Lemma num_eqb_not_nan (x y : num) : num_eqb x y = true -> isnan x = false /\ isnan y = false.
Proof. destruct x, y; cbn; try discriminate; auto. Qed.

Lemma num_eqb_leb (x y : num) : num_eqb x y = true -> num_leb x y = true.
Proof.
  destruct x as [p | s |], y as [q | t |]; cbn; try discriminate.
  - rewrite Qeq_bool_iff, Qle_bool_iff. intros ->. apply Qle_refl.
  - destruct s, t; auto.
Qed.

Lemma num_leb_trans (x y z : num) :
  num_leb x y = true -> num_leb y z = true -> num_leb x z = true.
Proof.
  destruct x as [p | [|] |], y as [q | [|] |], z as [r | [|] |]; cbn;
    try discriminate; auto.
  rewrite !Qle_bool_iff. apply Qle_trans.
Qed.

Lemma num_leb_total (x y : num) :
  isnan x = false -> isnan y = false -> num_leb x y = true \/ num_leb y x = true.
Proof.
  destruct x as [p | s |], y as [q | t |]; cbn; try discriminate; intros _ _.
  - rewrite !Qle_bool_iff.
    destruct (Qlt_le_dec p q) as [H | H]; [left; apply Qlt_le_weak, H | right; exact H].
  - destruct t; auto.
  - destruct s; auto.
  - destruct s, t; auto.
Qed.

Lemma num_leb_antisym (x y : num) :
  num_leb x y = true -> num_leb y x = true -> num_eqb x y = true.
Proof.
  destruct x as [p | s |], y as [q | t |]; cbn; try discriminate.
  - rewrite !Qle_bool_iff, Qeq_bool_iff. apply Qle_antisym.
  - destruct t; discriminate.
  - destruct s; discriminate.
  - destruct s, t; auto.
Qed.

(** ** Sorting, counting and the mode *)

Lemma In_dropna (xs : list num) (x : num) :
  In x (dropna xs) <-> In x xs /\ isnan x = false.
Proof.
  unfold dropna. rewrite filter_In, negb_true_iff. reflexivity.
Qed.

Lemma has_value_dropna (xs : list num) : has_value xs <-> dropna xs <> [].
Proof.
  split.
  - intros (p & Hp & Hn) E.
    assert (H : In p (dropna xs)) by (apply In_dropna; auto). rewrite E in H. destruct H.
  - intros H. destruct (dropna xs) as [| p r] eqn:E; [congruence|].
    exists p. apply In_dropna. rewrite E. left. reflexivity.
Qed.

Lemma count_eqb (x y : num) (xs : list num) :
  num_eqb x y = true -> count x xs = count y xs.
Proof.
  intros H. unfold count. f_equal. apply filter_ext. intros z.
  destruct (num_eqb y z) eqn:E.
  - apply (num_eqb_trans x y z H E).
  - destruct (num_eqb x z) eqn:E'; [| reflexivity].
    rewrite num_eqb_sym in H. rewrite (num_eqb_trans y x z H E') in E. discriminate.
Qed.

(** nan equals nothing, so it is never counted. *)
Lemma count_dropna (x : num) (xs : list num) : count x (dropna xs) = count x xs.
Proof.
  unfold count, dropna. induction xs as [| a r IH]; [reflexivity|].
  cbn [filter]. destruct a as [q | s |]; cbn [isnan negb filter].
  - destruct (num_eqb x (Rat q)); cbn [List.length]; rewrite IH; reflexivity.
  - destruct (num_eqb x (Inf s)); cbn [List.length]; rewrite IH; reflexivity.
  - assert (E : num_eqb x NaN = false) by (destruct x; reflexivity).
    rewrite E. exact IH.
Qed.

Lemma fold_max_upper {A} (f : A -> nat) (l : list A) (x : A) :
  In x l -> (f x <= fold_right Nat.max 0 (map f l))%nat.
Proof.
  induction l as [| a l IH]; simpl; [tauto|].
  intros [-> | H]; [lia | specialize (IH H); lia].
Qed.

Lemma fold_max_attained {A} (f : A -> nat) (l : list A) :
  l <> [] -> exists x, In x l /\ f x = fold_right Nat.max 0%nat (map f l).
Proof.
  induction l as [| a l IH]; [congruence|]. intros _.
  destruct l as [| b l].
  - exists a. simpl. split; [auto | lia].
  - destruct IH as (x & Hx & Ex); [discriminate|].
    change (fold_right Nat.max 0%nat (map f (a :: b :: l)))
      with (Nat.max (f a) (fold_right Nat.max 0%nat (map f (b :: l)))).
    destruct (Nat.max_spec (f a) (fold_right Nat.max 0%nat (map f (b :: l)))) as [[_ ->] | [_ ->]].
    + exists x. split; [right; exact Hx | exact Ex].
    + exists a. split; [left; reflexivity | reflexivity].
Qed.

Lemma count_le_max_count (xs : list num) (y : num) :
  In y xs -> (count y xs <= max_count xs)%nat.
Proof. apply (fold_max_upper (fun x => count x xs)). Qed.

Lemma unique_incl (xs : list num) (y : num) : In y (unique xs) -> In y xs.
Proof.
  revert y. induction xs as [| x r IH]; simpl; [tauto|].
  intros y [-> | H]; [auto|]. apply filter_In in H. right. apply IH, H.
Qed.

Lemma unique_represents (xs : list num) (x : num) :
  In x xs -> isnan x = false -> exists y, In y (unique xs) /\ num_eqb y x = true.
Proof.
  intros H Hn. induction xs as [| a r IH]; simpl; [destruct H|].
  destruct H as [-> | H].
  - exists x. split; [auto | apply num_eqb_refl, Hn].
  - destruct (IH H) as (y & Hy & E).
    destruct (num_eqb a y) eqn:B.
    + exists a. split; [auto|]. apply (num_eqb_trans a y x B E).
    + exists y. split; [| exact E]. right. apply filter_In. rewrite B. auto.
Qed.

Lemma sort_leb_transitive : Transitive (fun x y : num => is_true (NumOrder.leb x y)).
Proof.
  intros x y z. unfold is_true, NumOrder.leb.
  destruct z as [r | u |]; [| | reflexivity]; intros A B.
  - destruct y as [q | t |]; [| | discriminate B]; exact (num_leb_trans _ _ _ A B).
  - destruct y as [q | t |]; [| | discriminate B]; exact (num_leb_trans _ _ _ A B).
Qed.

Lemma sort_values_perm (xs : list num) : Permutation xs (sort_values xs).
Proof. apply NumSort.Permuted_sort. Qed.

Lemma sort_values_sorted (xs : list num) :
  StronglySorted (fun x y => is_true (NumOrder.leb x y)) (sort_values xs).
Proof. apply NumSort.StronglySorted_sort, sort_leb_transitive. Qed.

Lemma sort_values_head_least (xs : list num) (m : num) (rest : list num) :
  sort_values xs = m :: rest ->
  forall y, In y xs -> isnan y = false -> num_leb m y = true.
Proof.
  intros E y Hy Hn.
  pose proof (sort_values_sorted xs) as S. rewrite E in S.
  apply (Permutation_in _ (sort_values_perm xs)) in Hy. rewrite E in Hy.
  apply StronglySorted_inv in S. destruct S as [_ F].
  destruct Hy as [<- | Hy].
  - apply num_eqb_leb, num_eqb_refl, Hn.
  - rewrite Forall_forall in F. specialize (F y Hy).
    unfold is_true, NumOrder.leb in F. destruct y; [exact F | exact F | discriminate Hn].
Qed.

(** The first mode: a value of the column that is not nan, occurs most
    often and is the least of those that do. *)
Lemma Series_mode_head (xs : list num) :
  has_value xs ->
  exists m rest,
    Series_mode xs = m :: rest /\ In m xs /\ isnan m = false /\
    (forall y, In y xs -> (count y xs <= count m xs)%nat) /\
    (forall y, In y xs -> count y xs = count m xs -> num_leb m y = true).
Proof.
  intros Hv. apply has_value_dropna in Hv. unfold Series_mode. cbv zeta.
  set (v := dropna xs) in *.
  set (L := filter (fun x => Nat.eqb (count x v) (max_count v)) (unique v)).
  assert (HL : forall y, In y v -> count y v = max_count v ->
                         exists y', In y' L /\ num_eqb y' y = true).
  { intros y Hy Hc. apply In_dropna in Hy as Hy2. destruct Hy2 as [_ Hn].
    destruct (unique_represents v y Hy Hn) as (y' & Hy' & E).
    exists y'. split; [| exact E]. apply filter_In. split; [exact Hy'|].
    apply Nat.eqb_eq. rewrite (count_eqb _ _ v E). exact Hc. }
  destruct (fold_max_attained (fun x => count x v) v Hv) as (x & Hx & Ex).
  fold (max_count v) in Ex.
  destruct (HL x Hx Ex) as (x' & Hx' & _).
  destruct (sort_values L) as [| m rest] eqn:ES.
  - apply (Permutation_in _ (sort_values_perm L)) in Hx'. rewrite ES in Hx'. destruct Hx'.
  - exists m, rest. split; [reflexivity|].
    assert (Hm : In m L).
    { apply (Permutation_in _ (Permutation_sym (sort_values_perm L))). rewrite ES. left. reflexivity. }
    apply filter_In in Hm. destruct Hm as [Hu Hc]. apply Nat.eqb_eq in Hc.
    apply unique_incl, In_dropna in Hu. destruct Hu as [Hin Hn].
    assert (Hpos : (1 <= count m v)%nat).
    { rewrite Hc, <- Ex. unfold count.
      assert (I : In x (filter (num_eqb x) v)).
      { apply filter_In. split; [exact Hx|]. apply num_eqb_refl. apply In_dropna in Hx. apply Hx. }
      destruct (filter (num_eqb x) v); [destruct I | cbn; lia]. }
    split; [exact Hin|]. split; [exact Hn|]. split.
    + intros y Hy. rewrite <- !(count_dropna _ xs). fold v. rewrite Hc.
      destruct (isnan y) eqn:Ny.
      * destruct y; try discriminate Ny. unfold count. cbn.
        assert (E0 : filter (num_eqb NaN) v = []).
        { clear. induction v as [| a r IH]; [reflexivity|]. cbn. exact IH. }
        rewrite E0. cbn. lia.
      * apply count_le_max_count. apply In_dropna. auto.
    + intros y Hy Hcy. rewrite <- !(count_dropna _ xs) in Hcy. fold v in Hcy.
      destruct (isnan y) eqn:Ny.
      * exfalso. destruct y; try discriminate Ny.
        assert (E0 : count NaN v = 0%nat).
        { unfold count. clear. induction v as [| a r IH]; [reflexivity|]. cbn. exact IH. }
        lia.
      * assert (Hyv : In y v) by (apply In_dropna; auto).
        destruct (HL y Hyv ltac:(lia)) as (y' & Hy' & E).
        pose proof (sort_values_head_least L m rest ES y' Hy') as Hle.
        apply num_eqb_not_nan in E as Hnn. destruct Hnn as [Hn' _].
        apply (num_leb_trans m y' y (Hle Hn')). apply num_eqb_leb, E.
Qed.

(** ** The analysis is defined when the column has a value *)

Lemma analysis_statistics_total (prices : list num) :
  has_value prices ->
  exists m rest,
    Series_mode prices = m :: rest /\
    analysis_statistics prices =
      Ok (mkSummary (round (Series_mean prices) 2) (round (Series_min prices) 2)
                    (round (Series_max prices) 2)
                    (round (Series_quantile prices 0.25) 2)
                    (round (Series_quantile prices 0.5) 2)
                    (round (Series_quantile prices 0.75) 2)
                    (round m 2) (round (Series_std prices) 2)
                    (round (num_sub (round (Series_quantile prices 0.75) 2)
                                    (round (Series_quantile prices 0.25) 2)) 2)).
Proof.
  intros H. destruct (Series_mode_head prices H) as (m & rest & E & _).
  exists m, rest. split; [exact E|].
  unfold analysis_statistics. rewrite E. reflexivity.
Qed.

(** Without a value the first mode does not exist. *)
Lemma analysis_statistics_no_value (prices : list num) :
  ~ has_value prices -> analysis_statistics prices = Raise (KeyError "0").
Proof.
  intros H. rewrite has_value_dropna in H.
  assert (E : dropna prices = []) by (destruct (dropna prices); [reflexivity | exfalso; apply H; discriminate]).
  unfold analysis_statistics, Series_mode. rewrite E. reflexivity.
Qed.

(** ** Minimum and maximum *)

Lemma num_min_cases (a b : num) :
  isnan a = false -> isnan b = false ->
  (num_min a b = a /\ num_leb a b = true) \/ (num_min a b = b /\ num_leb b a = true).
Proof.
  intros Ha Hb. unfold num_min. destruct (num_leb b a) eqn:E; [right; auto|].
  left. split; [reflexivity|]. destruct (num_leb_total a b Ha Hb); congruence.
Qed.

Lemma num_max_cases (a b : num) :
  isnan a = false -> isnan b = false ->
  (num_max a b = a /\ num_leb b a = true) \/ (num_max a b = b /\ num_leb a b = true).
Proof.
  intros Ha Hb. unfold num_max. destruct (num_leb a b) eqn:E; [right; auto|].
  left. split; [reflexivity|]. destruct (num_leb_total a b Ha Hb); congruence.
Qed.

Lemma num_leb_refl (x : num) : isnan x = false -> num_leb x x = true.
Proof. intros H. apply num_eqb_leb, num_eqb_refl, H. Qed.

Lemma fold_min_least (r : list num) (x : num) :
  isnan x = false -> (forall y, In y r -> isnan y = false) ->
  In (fold_left num_min r x) (x :: r) /\
  forall y, In y (x :: r) -> num_leb (fold_left num_min r x) y = true.
Proof.
  revert x. induction r as [| a r IH]; intros x Hx Hr; cbn [fold_left].
  - split; [left; reflexivity|]. intros y [<- | []]. apply num_leb_refl, Hx.
  - assert (Ha : isnan a = false) by (apply Hr; left; reflexivity).
    assert (Hm : isnan (num_min x a) = false).
    { destruct (num_min_cases x a Hx Ha) as [[-> _] | [-> _]]; assumption. }
    destruct (IH (num_min x a) Hm (fun y Hy => Hr y (or_intror Hy))) as [I L].
    split.
    + destruct I as [E | I]; [| right; right; exact I].
      rewrite <- E. destruct (num_min_cases x a Hx Ha) as [[-> _] | [-> _]];
        [left | right; left]; reflexivity.
    + intros y Hy.
      assert (L0 : num_leb (fold_left num_min r (num_min x a)) (num_min x a) = true)
        by (apply L; left; reflexivity).
      destruct Hy as [<- | [<- | Hy]].
      * apply (num_leb_trans _ _ _ L0).
        destruct (num_min_cases x a Hx Ha) as [[-> _] | [-> E]];
          [apply num_leb_refl, Hx | exact E].
      * apply (num_leb_trans _ _ _ L0).
        destruct (num_min_cases x a Hx Ha) as [[-> E] | [-> _]];
          [exact E | apply num_leb_refl, Ha].
      * apply L. right. exact Hy.
Qed.

Lemma fold_max_greatest (r : list num) (x : num) :
  isnan x = false -> (forall y, In y r -> isnan y = false) ->
  In (fold_left num_max r x) (x :: r) /\
  forall y, In y (x :: r) -> num_leb y (fold_left num_max r x) = true.
Proof.
  revert x. induction r as [| a r IH]; intros x Hx Hr; cbn [fold_left].
  - split; [left; reflexivity|]. intros y [<- | []]. apply num_leb_refl, Hx.
  - assert (Ha : isnan a = false) by (apply Hr; left; reflexivity).
    assert (Hm : isnan (num_max x a) = false).
    { destruct (num_max_cases x a Hx Ha) as [[-> _] | [-> _]]; assumption. }
    destruct (IH (num_max x a) Hm (fun y Hy => Hr y (or_intror Hy))) as [I L].
    split.
    + destruct I as [E | I]; [| right; right; exact I].
      rewrite <- E. destruct (num_max_cases x a Hx Ha) as [[-> _] | [-> _]];
        [left | right; left]; reflexivity.
    + intros y Hy.
      assert (L0 : num_leb (num_max x a) (fold_left num_max r (num_max x a)) = true)
        by (apply L; left; reflexivity).
      destruct Hy as [<- | [<- | Hy]].
      * refine (num_leb_trans _ _ _ _ L0).
        destruct (num_max_cases x a Hx Ha) as [[-> _] | [-> E]];
          [apply num_leb_refl, Hx | exact E].
      * refine (num_leb_trans _ _ _ _ L0).
        destruct (num_max_cases x a Hx Ha) as [[-> E] | [-> _]];
          [exact E | apply num_leb_refl, Ha].
      * apply L. right. exact Hy.
Qed.

(** The minimum is a value of the column, not nan, below every other. *)
Lemma Series_min_spec (xs : list num) :
  has_value xs ->
  In (Series_min xs) xs /\ isnan (Series_min xs) = false /\
  forall y, In y xs -> isnan y = false -> num_leb (Series_min xs) y = true.
Proof.
  intros H. apply has_value_dropna in H. unfold Series_min.
  destruct (dropna xs) as [| x r] eqn:E; [congruence|].
  assert (Hx : isnan x = false).
  { assert (I : In x (dropna xs)) by (rewrite E; left; reflexivity). apply In_dropna in I. apply I. }
  assert (Hr : forall y, In y r -> isnan y = false).
  { intros y Hy. assert (I : In y (dropna xs)) by (rewrite E; right; exact Hy).
    apply In_dropna in I. apply I. }
  destruct (fold_min_least r x Hx Hr) as [I L].
  rewrite <- E in I. apply In_dropna in I. destruct I as [I N].
  split; [exact I|]. split; [exact N|].
  intros y Hy Ny. apply L. rewrite <- E. apply In_dropna. auto.
Qed.

Lemma Series_max_spec (xs : list num) :
  has_value xs ->
  In (Series_max xs) xs /\ isnan (Series_max xs) = false /\
  forall y, In y xs -> isnan y = false -> num_leb y (Series_max xs) = true.
Proof.
  intros H. apply has_value_dropna in H. unfold Series_max.
  destruct (dropna xs) as [| x r] eqn:E; [congruence|].
  assert (Hx : isnan x = false).
  { assert (I : In x (dropna xs)) by (rewrite E; left; reflexivity). apply In_dropna in I. apply I. }
  assert (Hr : forall y, In y r -> isnan y = false).
  { intros y Hy. assert (I : In y (dropna xs)) by (rewrite E; right; exact Hy).
    apply In_dropna in I. apply I. }
  destruct (fold_max_greatest r x Hx Hr) as [I L].
  rewrite <- E in I. apply In_dropna in I. destruct I as [I N].
  split; [exact I|]. split; [exact N|].
  intros y Hy Ny. apply L. rewrite <- E. apply In_dropna. auto.
Qed.

(** ** The statistics engine *)

(** C5 (amended).  For every price column with a value that is not nan the
    analysis succeeds and the mode it reports is [round(m, 2)] for a value
    [m] of the column that is most frequent (no value occurs more often) and
    smallest among the most frequent ones.  When [m] is a float with two
    decimals, as the API's prices are, the reported mode is [m] itself;
    otherwise it need not be a value of the column at all. *)
Theorem mode_is_smallest_most_frequent (prices : list num) :
  has_value prices ->
  exists m st,
    analysis_statistics prices = Ok st /\
    mode st = round m 2 /\
    In m prices /\ isnan m = false /\
    (forall y, In y prices -> (count y prices <= count m prices)%nat) /\
    (forall y, In y prices -> count y prices = count m prices -> num_leb m y = true) /\
    (forall k : Z, (Z.abs k <= 2 ^ 50)%Z -> m = double (k # 100) ->
       mode st = m /\ most_frequent prices (mode st)).
Proof.
  intros H.
  destruct (Series_mode_head prices H) as (m & rest & E & Hin & Hn & Hc & Hleast).
  destruct (analysis_statistics_total prices H) as (m' & rest' & E' & Hst).
  rewrite E in E'. injection E' as <- <-.
  eexists m, _. split; [exact Hst|]. cbn [mode]. split; [reflexivity|].
  split; [exact Hin|]. split; [exact Hn|]. split; [exact Hc|]. split; [exact Hleast|].
  intros k Hk ->. rewrite (round_2_fixes_hundredths k Hk).
  split; [reflexivity|]. split; [| exact Hc].
  exists (double (k # 100)). split; [exact Hin | apply num_eqb_refl, Hn].
Qed.

(** C5, witness: 1 and 3 both occur twice in 3, 1, 3, 1, 2. *)
Lemma mode_is_smallest_most_frequent_witness :
  has_value tied_prices /\
  exists m st,
    analysis_statistics tied_prices = Ok st /\
    mode st = round m 2 /\
    In m tied_prices /\ isnan m = false /\
    (forall y, In y tied_prices -> (count y tied_prices <= count m tied_prices)%nat) /\
    (forall y, In y tied_prices -> count y tied_prices = count m tied_prices ->
               num_leb m y = true) /\
    (forall k : Z, (Z.abs k <= 2 ^ 50)%Z -> m = double (k # 100) ->
       mode st = m /\ most_frequent tied_prices (mode st)).
Proof.
  assert (H : has_value tied_prices).
  { exists (double 3). split; [left; reflexivity | vm_compute; reflexivity]. }
  split; [exact H|].
  apply (mode_is_smallest_most_frequent tied_prices). exact H.
Defined.

Example mode_of_tie :
  analysis_statistics tied_prices =
    Ok (mkSummary (Rat 2) (Rat 1) (Rat 3) (Rat 1) (Rat 2) (Rat 3) (Rat 1) (Rat 1) (Rat 2)) /\
  Rat 1 = double (100 # 100).
Proof. split; vm_compute; reflexivity. Qed.

(** C5, counterexample: in 0.004, 0.004, 0 the most frequent value is
    0.004; the reported mode is round(0.004, 2) = 0.0, which occurs once
    while 0.004 occurs twice. *)
Lemma reported_mode_is_not_most_frequent :
  has_value small_prices /\
  exists st,
    analysis_statistics small_prices = Ok st /\
    Series_mode small_prices = [double 0.004] /\
    mode st = Rat 0 /\
    count (mode st) small_prices = 1%nat /\
    count (double 0.004) small_prices = 2%nat /\
    ~ most_frequent small_prices (mode st).
Proof.
  split.
  { exists (double 0). split; [right; right; left; reflexivity | vm_compute; reflexivity]. }
  eexists. split; [vm_compute; reflexivity|]. cbn [mode].
  split; [vm_compute; reflexivity|]. split; [vm_compute; reflexivity|].
  split; [vm_compute; reflexivity|]. split; [vm_compute; reflexivity|].
  intros [_ H]. specialize (H (double 0.004) (or_introl eq_refl)).
  vm_compute in H. lia.
Qed.

(** C4.  On the prices 100, 200, 300, 400 the statistics are: mean 250,
    minimum 100, maximum 400, Q1 175, median 250, Q3 325, sample standard
    deviation the square root of 50000/3 in binary64, which rounds to
    129.1, and interquartile range 150.  Each quartile is the linear
    interpolation between the two order statistics around its virtual
    index; the analysis tab reports these values with two decimals, and
    the mode 100. *)
Theorem statistics_of_100_200_300_400 :
  num_eq (Series_mean test_prices) (Rat 250) /\
  num_eq (Series_min test_prices) (Rat 100) /\
  num_eq (Series_max test_prices) (Rat 400) /\
  sort_values test_prices = [Rat 100; Rat 200; Rat 300; Rat 400] /\
  num_eq (Series_quantile test_prices 0.25) (Rat (100 + (200 - 100) * 0.75)) /\
  num_eq (Series_quantile test_prices 0.5) (Rat (200 + (300 - 200) * 0.5)) /\
  num_eq (Series_quantile test_prices 0.75) (Rat (300 + (400 - 300) * 0.25)) /\
  num_eq (Series_quantile test_prices 0.25) (Rat 175) /\
  num_eq (Series_quantile test_prices 0.5) (Rat 250) /\
  num_eq (Series_quantile test_prices 0.75) (Rat 325) /\
  Series_std test_prices = num_sqrt (double (50000 / 3)) /\
  round (Series_std test_prices) 2 = double 129.10 /\
  num_eq (num_sub (Series_quantile test_prices 0.75) (Series_quantile test_prices 0.25))
         (Rat 150) /\
  analysis_statistics test_prices =
    Ok {| avg_price := double 250.00; min_price := double 100.00; max_price := double 400.00;
          q1 := double 175.00; q2 := double 250.00; q3 := double 325.00;
          mode := double 100.00; std_dev := double 129.10; iqr := double 150.00 |}.
Proof.
  repeat (match goal with |- _ /\ _ => split end); vm_compute; reflexivity.
Qed.

(** C6 (amended).  For every price column with a value that is not nan the
    analysis succeeds and the mean, minimum, maximum, Q1, median, Q3, mode
    and standard deviation it reports are each the statistic passed through
    [round(., 2)] in binary64: the float nearest to [k / 100] for the
    integer [k] nearest to 100 times the statistic as the float product
    gives it.  The standard deviation is nan when exactly one price is not
    nan.  The interquartile range is so rounded from the difference of the
    reported Q3 and the reported Q1, not from Q3 - Q1. *)
Theorem summary_rounding (prices : list num) :
  has_value prices ->
  exists st,
    analysis_statistics prices = Ok st /\
    rounded_to_2 (Series_mean prices) (avg_price st) /\
    rounded_to_2 (Series_min prices) (min_price st) /\
    rounded_to_2 (Series_max prices) (max_price st) /\
    rounded_to_2 (Series_quantile prices 0.25) (q1 st) /\
    rounded_to_2 (Series_quantile prices 0.5) (q2 st) /\
    rounded_to_2 (Series_quantile prices 0.75) (q3 st) /\
    (exists m rest, Series_mode prices = m :: rest /\ rounded_to_2 m (mode st)) /\
    rounded_to_2 (Series_std prices) (std_dev st) /\
    (List.length (dropna prices) = 1%nat -> std_dev st = NaN) /\
    rounded_to_2 (num_sub (q3 st) (q1 st)) (iqr st).
Proof.
  intros H.
  destruct (analysis_statistics_total prices H) as (m & rest & Em & Hst).
  eexists. split; [exact Hst|].
  cbn [avg_price min_price max_price q1 q2 q3 mode std_dev iqr].
  repeat (split; [apply round_2_spec|]).
  split; [exists m, rest; split; [exact Em | apply round_2_spec]|].
  split; [apply round_2_spec|]. split; [| apply round_2_spec].
  intros L. unfold Series_std. cbv zeta. rewrite L. reflexivity.
Qed.

Lemma has_value_test_prices : has_value test_prices.
Proof. exists (double 100). split; [left; reflexivity | vm_compute; reflexivity]. Qed.

(** C6, witness: the worked example. *)
Lemma summary_rounding_witness :
  has_value test_prices /\
  exists st,
    analysis_statistics test_prices = Ok st /\
    rounded_to_2 (Series_mean test_prices) (avg_price st) /\
    rounded_to_2 (Series_min test_prices) (min_price st) /\
    rounded_to_2 (Series_max test_prices) (max_price st) /\
    rounded_to_2 (Series_quantile test_prices 0.25) (q1 st) /\
    rounded_to_2 (Series_quantile test_prices 0.5) (q2 st) /\
    rounded_to_2 (Series_quantile test_prices 0.75) (q3 st) /\
    (exists m rest, Series_mode test_prices = m :: rest /\ rounded_to_2 m (mode st)) /\
    rounded_to_2 (Series_std test_prices) (std_dev st) /\
    (List.length (dropna test_prices) = 1%nat -> std_dev st = NaN) /\
    rounded_to_2 (num_sub (q3 st) (q1 st)) (iqr st).
Proof.
  assert (H : has_value test_prices).
  { exists (double 100). split; [left; reflexivity | vm_compute; reflexivity]. }
  split; [exact H|]. apply (summary_rounding test_prices). exact H.
Defined.

(** An integer strictly between two consecutive integers does not exist;
    used to pin down the [k] of a rounding. *)
Lemma inject_Z_between (k a : Z) (x : Q) :
  Qabs (x - inject_Z k) <= 3 # 4 -> inject_Z a - (1 # 5) <= x -> x <= inject_Z a + (1 # 5) ->
  k = a.
Proof.
  intros H L U. apply Qabs_Qle_condition in H. destruct H as [H1 H2].
  apply inject_Z_close. apply Qabs_Qlt_condition. split; lra.
Qed.

(** C6, counterexample: with quartiles 0.006 and 0.014 the interquartile
    range Q3 - Q1 is 0.008, which rounds to 0.01; the code subtracts the
    rounded quartiles (0.01 - 0.01) and reports 0.0. *)
Lemma iqr_is_rounded_twice :
  exists st,
    analysis_statistics close_prices = Ok st /\
    num_sub (Series_quantile close_prices 0.75) (Series_quantile close_prices 0.25) =
      double 0.008 /\
    round (double 0.008) 2 = double 0.01 /\
    q1 st = double 0.01 /\ q3 st = double 0.01 /\
    iqr st = Rat 0 /\
    ~ all_nine_rounded close_prices st.
Proof.
  eexists. split; [vm_compute; reflexivity|].
  cbn [q1 q3 iqr].
  repeat (split; [vm_compute; reflexivity|]).
  intros (_ & _ & _ & _ & _ & _ & _ & _ & H). cbn [iqr] in H.
  revert H.
  assert (V : exists d, num_sub (Series_quantile close_prices 0.75)
                                (Series_quantile close_prices 0.25) = Rat d /\
                        (4 # 5) <= d * 100 /\ d * 100 <= (9 # 10)).
  { eexists. split; [vm_compute; reflexivity|]. split; vm_compute; discriminate. }
  destruct V as (d & -> & D1 & D2). cbn [rounded_to_2].
  pose proof pow2_m53_value as A. pose proof pow2_m1075_small as B.
  pose proof pow2_1023_large as L.
  assert (Ad : Qabs (d * 100) <= 1) by (apply Qabs_Qle_condition; split; lra).
  pose proof (Qabs_nonneg (d * 100)) as Ad0.
  intros [(k & Ek & Hk) | [Hbig _]]; [| lra].
  assert (K : k = 1%Z).
  { apply (inject_Z_between k 1 (d * 100)); change (inject_Z 1) with 1; [| lra | lra].
    rewrite A in Hk. lra. }
  subst k. vm_compute in Ek. discriminate Ek.
Qed.

(** The product [x * 100] is itself rounded: the float written 2.675 lies
    below 2.675, yet it is reported as 2.68, not as the nearest hundredth
    2.67. *)
Example round_of_2_675 :
  round (double 2.675) 2 = double 2.68 /\
  rounded_to_2 (double 2.675) (double 2.68) /\
  ~ nearest_hundredth (double 2.675) (double 2.68).
Proof.
  assert (R : round (double 2.675) 2 = double 2.68) by (vm_compute; reflexivity).
  split; [exact R|]. split; [rewrite <- R; apply round_2_spec|].
  assert (V : exists q, double 2.675 = Rat q /\ 267 + (2 # 5) <= q * 100 /\ q * 100 < 267 + (1 # 2)).
  { eexists. split; [vm_compute; reflexivity|]. split; vm_compute; [discriminate | reflexivity]. }
  destruct V as (q & -> & Q1 & Q2). cbn [nearest_hundredth].
  intros (k & Ek & Hk).
  assert (K : k = 267%Z).
  { apply Qabs_Qle_condition in Hk. destruct Hk as [H1 H2].
    apply inject_Z_close. apply Qabs_Qlt_condition.
    change (inject_Z 267) with 267. split; lra. }
  subst k. vm_compute in Ek. discriminate Ek.
Qed.

Example single_price_has_no_deviation :
  analysis_statistics [double 5] =
    Ok {| avg_price := Rat 5; min_price := Rat 5; max_price := Rat 5;
          q1 := Rat 5; q2 := Rat 5; q3 := Rat 5; mode := Rat 5;
          std_dev := NaN; iqr := Rat 0 |}.
Proof. vm_compute. reflexivity. Qed.

(** ** Fetcher and callback *)

Lemma chart_statistics_nil : chart_statistics [] = mkChartSummary NaN NaN NaN.
Proof. vm_compute. reflexivity. Qed.

Section DashboardProperties.

Variable strptime_date : string -> option date.
Variable float_of_str : string -> option num.
Variable plot_png_base64 : list Timestamp -> list num -> string.

Local Abbreviation get_gold_data := (get_gold_data strptime_date float_of_str).
Local Abbreviation render_content :=
  (render_content strptime_date float_of_str plot_png_base64).
Local Abbreviation process := (process strptime_date float_of_str).
Local Abbreviation decode := (decode strptime_date float_of_str).
Local Abbreviation decode_response := (decode_response strptime_date float_of_str).
Local Abbreviation record_of := (record_of strptime_date float_of_str).
Local Abbreviation run_callbacks :=
  (run_callbacks strptime_date float_of_str plot_png_base64).

(** Case analysis on what follows the fetch in [render_content]. *)
Ltac render_tail tab df :=
  destruct (String.eqb tab "gold"); [reflexivity|];
  destruct (String.eqb tab "analysis"); [| reflexivity];
  unfold lift; cbn [bind M_monad ret];
  destruct (analysis_statistics (Price df)) as [? | ?]; [| reflexivity];
  destruct (statistics_table _) as [? | ?]; reflexivity.

(** Replace the fetch in [render_content] by its known result [H]. *)
Ltac fetched H :=
  unfold render_content; cbn [bind M_monad];
  match goal with
  | |- context [get_gold_data ?s ?e ?w] =>
      let r := fresh "r" in
      let w' := fresh "w'" in
      destruct (get_gold_data s e w) as [r w']; cbn [fst] in H; subst r
  end.

Lemma get_gold_data_unfold (start_date end_date : string) (w : world) :
  get_gold_data start_date end_date w =
  let url := api_url start_date end_date in
  match decode (network w url) with
  | Ok df => (Ok df, after_get url w [])
  | Raise e =>
      if is_RequestException e
      then (Ok None, after_get url w [("Error fetching data: ", e)])
      else (Raise e, after_get url w [])
  end.
Proof.
  cbv zeta. unfold get_gold_data, try_except_RequestException, requests_get.
  unfold decode, decode_response, after_get.
  cbn [bind M_monad result_monad app].
  destruct (network w (api_url start_date end_date)) as [msg | r]; [reflexivity|].
  unfold lift.
  destruct (raise_for_status r) as [[] | e]; [| destruct e; reflexivity].
  destruct (Response_json r) as [data | e]; [| destruct e; reflexivity].
  destruct (iter data) as [items | e]; [| destruct e; reflexivity].
  destruct (process items [] []) as [cols | e]; [| destruct e; reflexivity].
  reflexivity.
Qed.

Lemma get_gold_data_requests (start_date end_date : string) (w : world) :
  requests_sent (snd (get_gold_data start_date end_date w)) =
  api_url start_date end_date :: requests_sent w.
Proof.
  rewrite get_gold_data_unfold. cbv zeta.
  destruct (decode _) as [df | e]; [reflexivity|].
  destruct (is_RequestException e); reflexivity.
Qed.

Lemma get_gold_data_network (start_date end_date : string) (w : world) :
  network (snd (get_gold_data start_date end_date w)) = network w.
Proof.
  rewrite get_gold_data_unfold. cbv zeta.
  destruct (decode _) as [df | e]; [reflexivity|].
  destruct (is_RequestException e); reflexivity.
Qed.

(** After the fetch the callback only computes: the rest of
    [render_content] does not change the world ... *)
Lemma render_content_world (tab start_date end_date : string) (w : world) :
  snd (render_content tab start_date end_date w) =
  snd (get_gold_data start_date end_date w).
Proof.
  unfold render_content. cbn [bind M_monad].
  destruct (get_gold_data start_date end_date w) as [[[df |] | e] w'];
    [| reflexivity | reflexivity].
  render_tail tab df.
Qed.

(** ... and its result is a function of what was fetched. *)
Lemma render_content_result (tab start_date end_date : string) (w1 w2 : world) :
  fst (get_gold_data start_date end_date w1) = fst (get_gold_data start_date end_date w2) ->
  fst (render_content tab start_date end_date w1) =
  fst (render_content tab start_date end_date w2).
Proof.
  unfold render_content. cbn [bind M_monad].
  destruct (get_gold_data start_date end_date w1) as [r1 w1'].
  destruct (get_gold_data start_date end_date w2) as [r2 w2'].
  cbn [fst]. intros <-. destruct r1 as [[df |] | e]; [| reflexivity | reflexivity].
  render_tail tab df.
Qed.

Lemma render_content_requests (tab start_date end_date : string) (w : world) :
  requests_sent (snd (render_content tab start_date end_date w)) =
  api_url start_date end_date :: requests_sent w.
Proof. rewrite render_content_world. apply get_gold_data_requests. Qed.

(** C3 (amended).  Every invocation of the callback issues exactly one GET,
    whatever the tab and whatever was fetched before: after a sequence of
    events the requests sent are the events' URLs, one per event, so a tab
    switch with unchanged dates adds one more request for the same URL. *)
Theorem every_callback_issues_one_get
    (events : list (string * string * string)) (w : world) :
  requests_sent (run_callbacks events w) = (rev (map event_url events) ++ requests_sent w)%list /\
  List.length (requests_sent (run_callbacks events w)) =
    (List.length events + List.length (requests_sent w))%nat.
Proof.
  assert (H : forall evs w0,
             requests_sent (run_callbacks evs w0) = (rev (map event_url evs) ++ requests_sent w0)%list).
  { induction evs as [| [[tab start_date] end_date] rest IH]; intros w0; [reflexivity|].
    cbn [run_callbacks map rev event_url].
    rewrite IH, render_content_requests, <- app_assoc. reflexivity. }
  split; [apply H|].
  rewrite H, length_app, length_rev, length_map. reflexivity.
Qed.

(** C9.  Two invocations with the same tab and dates, in worlds where the
    network gives the same answer for the requested URL, return the same
    output, whatever was requested or printed before. *)
Theorem render_content_deterministic
    (tab start_date end_date : string) (w1 w2 : world) :
  network w1 (api_url start_date end_date) = network w2 (api_url start_date end_date) ->
  fst (render_content tab start_date end_date w1) =
  fst (render_content tab start_date end_date w2).
Proof.
  intros H. apply render_content_result.
  rewrite !get_gold_data_unfold. cbv zeta. rewrite H.
  destruct (decode _) as [df | e]; [reflexivity|].
  destruct (is_RequestException e); reflexivity.
Qed.

(** C10.  When the fetch succeeds and the tab is neither "gold" nor
    "analysis", the callback falls through both branches and returns None. *)
Theorem unknown_tab_returns_none
    (tab start_date end_date : string) (w : world) (df : DataFrame) :
  tab <> "gold" -> tab <> "analysis" ->
  fst (get_gold_data start_date end_date w) = Ok (Some df) ->
  fst (render_content tab start_date end_date w) = Ok None.
Proof.
  intros Hg Ha Hf. fetched Hf.
  apply String.eqb_neq in Hg, Ha. rewrite Hg, Ha. reflexivity.
Qed.

Lemma process_records (items : list json) (obs : list (date * num)) :
  Forall2 record_of items obs ->
  forall dates prices,
    process items dates prices = Ok ((dates ++ map fst obs)%list, (prices ++ map snd obs)%list).
Proof.
  induction 1 as [| item o items obs Hrec _ IH]; intros dates prices.
  - cbn [process map]. rewrite !app_nil_r. reflexivity.
  - destruct Hrec as [fields s d c p Hd Hs Hc Hp].
    cbn [process getitem bind result_monad]. rewrite Hd.
    cbn [strptime]. rewrite Hs. rewrite Hc.
    assert (Hf : float float_of_str c = Ok p).
    { destruct Hp as [x | z r Hz | t x Ht]; cbn [float];
        [reflexivity | rewrite Hz; reflexivity | rewrite Ht; reflexivity]. }
    rewrite Hf, IH. cbn [map fst snd]. rewrite <- !app_assoc. reflexivity.
Qed.

(** C7 (amended).  When the response passes [raise_for_status] and its
    body is an array of N well-formed records, each with a date string that
    [strptime] reads and a price that is a JSON float, a JSON int whose
    nearest float is finite, or a string that [float] reads, [get_gold_data]
    returns a frame whose Date and Price columns are the records' dates and
    the floats of their prices in the order of the array; both columns have
    N entries. *)
Theorem get_gold_data_keeps_records
    (start_date end_date : string) (w : world) (r : Response)
    (items : list json) (obs : list (date * num)) :
  network w (api_url start_date end_date) = GetReturns r ->
  raise_for_status r = Ok tt ->
  body r = Some (JArr items) ->
  Forall2 record_of items obs ->
  exists df,
    fst (get_gold_data start_date end_date w) = Ok (Some df) /\
    Date df = map (fun o => Midnight (fst o)) obs /\
    Price df = map snd obs /\
    List.length (Date df) = List.length items /\
    List.length (Price df) = List.length items.
Proof.
  intros Hnet Hst Hbody Hrec.
  exists (mkDataFrame (map (fun o => Midnight (fst o)) obs) (map snd obs)).
  pose proof (Forall2_length Hrec) as Hlen.
  split; [| cbn [Date Price]; rewrite !length_map; auto].
  rewrite get_gold_data_unfold. cbv zeta. rewrite Hnet.
  unfold decode, decode_response, Response_json.
  rewrite Hst, Hbody. cbn [bind result_monad iter].
  rewrite (process_records items obs Hrec [] []). cbn [app fst snd ret result_monad].
  unfold to_datetime. rewrite map_map. reflexivity.
Qed.

(** C2 (amended).  When the GET raises, or the status is 4xx or 5xx, or the
    body is not JSON, [get_gold_data] catches the exception, prints one
    message and returns None, and [render_content] returns the plain error
    message for every tab. *)
Theorem request_errors_give_error_message
    (tab start_date end_date : string) (w : world) :
  request_error (network w (api_url start_date end_date)) ->
  (exists e, is_RequestException e = true /\
             get_gold_data start_date end_date w =
               (Ok None, after_get (api_url start_date end_date) w
                           [("Error fetching data: ", e)])) /\
  fst (render_content tab start_date end_date w) = Ok (Some error_message).
Proof.
  intros H.
  assert (G : exists e, is_RequestException e = true /\
              get_gold_data start_date end_date w =
                (Ok None, after_get (api_url start_date end_date) w
                            [("Error fetching data: ", e)])).
  { rewrite get_gold_data_unfold. cbv zeta.
    destruct (network w (api_url start_date end_date)) as [msg | r].
    - exists (ConnectionError msg). split; reflexivity.
    - unfold decode, decode_response, raise_for_status, Response_json.
      destruct H as [[Hlo Hhi] | Hb].
      + apply Z.leb_le in Hlo. apply Z.ltb_lt in Hhi. rewrite Hlo, Hhi.
        exists (HTTPError (status_code r)). split; reflexivity.
      + rewrite Hb.
        destruct ((400 <=? status_code r)%Z && (status_code r <? 600)%Z).
        * exists (HTTPError (status_code r)). split; reflexivity.
        * exists JSONDecodeError. split; reflexivity. }
  split; [exact G|]. destruct G as (e & _ & G).
  unfold render_content. cbn [bind M_monad]. rewrite G. reflexivity.
Qed.

(** C1 (amended).  There is no check for empty input.  On a frame with no
    prices the chart tab is rendered with average, maximum and minimum all
    NaN; the analysis tab produces no table: indexing the first mode of the
    empty column raises KeyError, which the callback does not catch. *)
Theorem empty_prices_no_explicit_error
    (start_date end_date : string) (w : world) (df : DataFrame) :
  fst (get_gold_data start_date end_date w) = Ok (Some df) ->
  Price df = [] ->
  fst (render_content "gold" start_date end_date w) =
    Ok (Some
      [Div
         [ Img ("data:image/png;base64," ++ plot_png_base64 (Date df) []) [("width", "100%")];
           Div
             [ P [Lit ("Data period: from " ++ start_date ++ " to " ++ end_date)];
               P [Lit "Average Price: "; Val NaN; Lit " PLN"];
               P [Lit "Maximum Price: "; Val NaN; Lit " PLN"];
               P [Lit "Minimum Price: "; Val NaN; Lit " PLN"] ]
             None [("textAlign", "center"); ("margin-top", "20px")] ]
         None []]) /\
  fst (render_content "analysis" start_date end_date w) = Raise (KeyError "0").
Proof.
  intros Hf He. fetched Hf.
  cbn [String.eqb Ascii.eqb Bool.eqb]. rewrite He. rewrite chart_statistics_nil.
  split; reflexivity.
Qed.


End DashboardProperties.

(** ** The claims on example inputs *)

(** C1, counterexample: an empty array from the API is charted; the three
    figures of the chart tab are NaN and nothing is raised. *)
Lemma empty_prices_chart_reports_nan :
  fst (get_gold_data sample_strptime sample_float "2024-01-01" "2024-01-31"
         (fresh (answering 200 (Some (JArr []))))) = Ok (Some (mkDataFrame [] [])) /\
  chart_statistics [] = mkChartSummary NaN NaN NaN /\
  fst (render_content sample_strptime sample_float sample_png "gold" "2024-01-01" "2024-01-31"
         (fresh (answering 200 (Some (JArr []))))) =
    Ok (Some
      [Div
         [ Img "data:image/png;base64,iVBORw0KGgo=" [("width", "100%")];
           Div
             [ P [Lit "Data period: from 2024-01-01 to 2024-01-31"];
               P [Lit "Average Price: "; Val NaN; Lit " PLN"];
               P [Lit "Maximum Price: "; Val NaN; Lit " PLN"];
               P [Lit "Minimum Price: "; Val NaN; Lit " PLN"] ]
             None [("textAlign", "center"); ("margin-top", "20px")] ]
         None []]).
Proof. repeat (match goal with |- _ /\ _ => split end); vm_compute; reflexivity. Qed.

(** C1, witness. *)
Lemma empty_prices_no_explicit_error_witness :
  fst (get_gold_data sample_strptime sample_float "2024-01-01" "2024-01-31"
         (fresh (answering 200 (Some (JArr []))))) = Ok (Some (mkDataFrame [] [])) /\
  fst (render_content sample_strptime sample_float sample_png "analysis" "2024-01-01"
         "2024-01-31" (fresh (answering 200 (Some (JArr []))))) = Raise (KeyError "0").
Proof.
  split; [reflexivity|].
  apply (empty_prices_no_explicit_error sample_strptime sample_float sample_png
           "2024-01-01" "2024-01-31" (fresh (answering 200 (Some (JArr []))))
           (mkDataFrame [] [])); reflexivity.
Defined.

(** C2, counterexample: a 300 answer is not 2xx, yet its body is read as
    data and the chart is drawn. *)
Lemma status_300_is_not_a_failure :
  fetch_failure (answering 300 (Some four_days) (api_url "2024-01-01" "2024-01-31")) /\
  fst (get_gold_data sample_strptime sample_float "2024-01-01" "2024-01-31"
         (fresh (answering 300 (Some four_days)))) =
    Ok (Some (mkDataFrame
                [ Midnight (mkDate 2024 1 2); Midnight (mkDate 2024 1 3);
                  Midnight (mkDate 2024 1 4); Midnight (mkDate 2024 1 5) ]
                test_prices)) /\
  fst (render_content sample_strptime sample_float sample_png "gold" "2024-01-01" "2024-01-31"
         (fresh (answering 300 (Some four_days)))) <> Ok (Some error_message).
Proof.
  split; [| split].
  - left. cbn. lia.
  - vm_compute. reflexivity.
  - vm_compute. discriminate.
Qed.

(** C2, witness: a 404 answer. *)
Lemma request_errors_give_error_message_witness :
  request_error (answering 404 None (api_url "2024-01-01" "2024-01-31")) /\
  fst (render_content sample_strptime sample_float sample_png "gold" "2024-01-01" "2024-01-31"
         (fresh (answering 404 None))) = Ok (Some error_message).
Proof.
  split; [left; cbn; lia|].
  apply (request_errors_give_error_message sample_strptime sample_float sample_png
           "gold" "2024-01-01" "2024-01-31" (fresh (answering 404 None))).
  left. cbn. lia.
Defined.

Example unreachable_network_gives_error_message :
  render_content sample_strptime sample_float sample_png "analysis" "2024-01-01" "2024-01-31"
    (fresh unreachable) =
  (Ok (Some error_message),
   mkWorld unreachable ["https://api.nbp.pl/api/cenyzlota/2024-01-01/2024-01-31/"]
     [("Error fetching data: ", ConnectionError "Connection refused")]).
Proof. reflexivity. Qed.

(** Outside the three request errors nothing is caught: an element
    without "cena" raises KeyError through the callback. *)
Example missing_price_raises :
  fst (render_content sample_strptime sample_float sample_png "gold" "2024-01-01" "2024-01-31"
         (fresh (answering 200 (Some (JArr [JObj [("data", JStr "2024-01-02")]]))))) =
  Raise (KeyError "cena").
Proof. reflexivity. Qed.

(** C3, counterexample: the same dates under the two tabs cost two GETs. *)
Lemma tab_switch_fetches_again :
  requests_sent
    (run_callbacks sample_strptime sample_float sample_png
       [("gold", "2024-01-01", "2024-01-31")] (fresh (answering 200 (Some four_days)))) =
    ["https://api.nbp.pl/api/cenyzlota/2024-01-01/2024-01-31/"] /\
  requests_sent
    (run_callbacks sample_strptime sample_float sample_png
       [("gold", "2024-01-01", "2024-01-31"); ("analysis", "2024-01-01", "2024-01-31")]
       (fresh (answering 200 (Some four_days)))) =
    ["https://api.nbp.pl/api/cenyzlota/2024-01-01/2024-01-31/";
     "https://api.nbp.pl/api/cenyzlota/2024-01-01/2024-01-31/"].
Proof. split; reflexivity. Qed.

(** C7, witness: four records. *)
Lemma get_gold_data_keeps_records_witness :
  exists df,
    fst (get_gold_data sample_strptime sample_float "2024-01-01" "2024-01-31"
           (fresh (answering 200 (Some four_days)))) = Ok (Some df) /\
    Date df = [ Midnight (mkDate 2024 1 2); Midnight (mkDate 2024 1 3);
                Midnight (mkDate 2024 1 4); Midnight (mkDate 2024 1 5) ] /\
    Price df = test_prices /\
    List.length (Date df) = 4%nat /\
    List.length (Price df) = 4%nat.
Proof.
  apply (get_gold_data_keeps_records sample_strptime sample_float
           "2024-01-01" "2024-01-31" (fresh (answering 200 (Some four_days)))
           (mkResponse 200 (Some four_days))
           [ api_item "2024-01-02" 100; api_item "2024-01-03" 200;
             api_item "2024-01-04" 300; api_item "2024-01-05" 400 ]
           [ (mkDate 2024 1 2, double 100); (mkDate 2024 1 3, double 200);
             (mkDate 2024 1 4, double 300); (mkDate 2024 1 5, double 400) ]);
    try reflexivity.
  repeat (constructor;
          [ eapply record_intro; [reflexivity | reflexivity | reflexivity | constructor ] |]).
  constructor.
Defined.

(** C7, counterexample: the JSON integer 10^400 is a numeric price, yet
    [float] refuses it; OverflowError is not a request error, so it leaves
    [get_gold_data] and the callback, and no frame is produced. *)
Lemma huge_integer_price_raises :
  fst (get_gold_data sample_strptime sample_float "2024-01-01" "2024-01-31"
         (fresh (answering 200 (Some huge_price)))) = Raise OverflowError /\
  is_RequestException OverflowError = false /\
  fst (render_content sample_strptime sample_float sample_png "gold" "2024-01-01" "2024-01-31"
         (fresh (answering 200 (Some huge_price)))) = Raise OverflowError.
Proof. repeat (match goal with |- _ /\ _ => split end); vm_compute; reflexivity. Qed.

(** An integer price above 2^53 is kept only to the nearest float. *)
Example integer_price_is_rounded :
  float sample_float (JInt (2 ^ 53 + 1)) = Ok (Rat (inject_Z (2 ^ 53))).
Proof. vm_compute. reflexivity. Qed.


(** C9, witness: two worlds with different histories. *)
Lemma render_content_deterministic_witness :
  fst (render_content sample_strptime sample_float sample_png "analysis" "2024-01-01"
         "2024-01-31" (fresh (answering 200 (Some four_days)))) =
  fst (render_content sample_strptime sample_float sample_png "analysis" "2024-01-01"
         "2024-01-31"
         (mkWorld (answering 200 (Some four_days))
            ["https://api.nbp.pl/api/cenyzlota/2023-01-01/2023-12-31/"]
            [("Error fetching data: ", HTTPError 404)])).
Proof.
  apply (render_content_deterministic sample_strptime sample_float sample_png
           "analysis" "2024-01-01" "2024-01-31"). reflexivity.
Defined.

(** C10, witness. *)
Lemma unknown_tab_returns_none_witness :
  fst (render_content sample_strptime sample_float sample_png "settings" "2024-01-01"
         "2024-01-31" (fresh (answering 200 (Some four_days)))) = Ok None.
Proof.
  apply (unknown_tab_returns_none sample_strptime sample_float sample_png
           "settings" "2024-01-01" "2024-01-31" (fresh (answering 200 (Some four_days)))
           (mkDataFrame
              [ Midnight (mkDate 2024 1 2); Midnight (mkDate 2024 1 3);
                Midnight (mkDate 2024 1 4); Midnight (mkDate 2024 1 5) ]
              test_prices)).
  - discriminate.
  - discriminate.
  - reflexivity.
Defined.

(** * Further properties *)

(** ** The fetch boundary and the callback *)

Section FetchProperties.

Variable strptime_date : string -> option date.
Variable float_of_str : string -> option num.
Variable plot_png_base64 : list Timestamp -> list num -> string.

Local Abbreviation get_gold_data := (get_gold_data strptime_date float_of_str).
Local Abbreviation render_content :=
  (render_content strptime_date float_of_str plot_png_base64).
Local Abbreviation process := (process strptime_date float_of_str).
Local Abbreviation decode := (decode strptime_date float_of_str).
Local Abbreviation decode_response := (decode_response strptime_date float_of_str).
Local Abbreviation observation := (observation strptime_date float_of_str).
Local Abbreviation run_callbacks :=
  (run_callbacks strptime_date float_of_str plot_png_base64).

(** The loop is a map: it succeeds when every element does, and then the
    two lists grow by the elements' dates and prices. *)
Lemma process_as_map (items : list json) :
  forall dates prices,
    process items dates prices =
    (obs <- mapM observation items ;;
     ret ((dates ++ map fst obs)%list, (prices ++ map snd obs)%list)).
Proof.
  induction items as [| item rest IH]; intros dates prices.
  - cbn [process mapM bind ret result_monad map]. rewrite !app_nil_r. reflexivity.
  - cbn [process mapM]. unfold observation.
    cbn [bind ret result_monad].
    destruct (getitem item "data") as [s | e]; [| reflexivity].
    destruct (strptime strptime_date s) as [d | e]; [| reflexivity].
    destruct (getitem item "cena") as [c | e]; [| reflexivity].
    destruct (float float_of_str c) as [p | e]; [| reflexivity].
    rewrite IH. cbn [bind ret result_monad].
    destruct (mapM _ rest) as [obs | e]; [| reflexivity].
    cbn [map fst snd]. rewrite <- !app_assoc. reflexivity.
Qed.

Lemma mapM_ok {A B} (f : A -> result B) (l : list A) (bs : list B) :
  mapM f l = Ok bs <-> Forall2 (fun a b => f a = Ok b) l bs.
Proof.
  revert bs. induction l as [| a l IH]; intros bs; cbn [mapM bind ret result_monad].
  - split; [intros [= <-]; constructor | intros H; inversion H; reflexivity].
  - destruct (f a) as [b | e] eqn:Ea.
    + destruct (mapM f l) as [bs' | e] eqn:El.
      * split.
        -- intros [= <-]. constructor; [exact Ea | apply IH; reflexivity].
        -- intros H. inversion H as [| ? b' ? bs'' Hb Hl]; subst.
           apply IH in Hl. congruence.
      * split; [discriminate|]. intros H. inversion H as [| ? b' ? bs'' Hb Hl]; subst.
        apply IH in Hl. discriminate.
    + split; [discriminate|]. intros H. inversion H; subst. congruence.
Qed.

Lemma mapM_first_failure {A B} (f : A -> result B) (good : list A) (bad : A)
    (rest : list A) (e : exn) :
  (forall a, In a good -> exists b, f a = Ok b) -> f bad = Raise e ->
  mapM f (good ++ bad :: rest) = Raise e.
Proof.
  intros Hgood Hbad. induction good as [| a good IH]; cbn [app mapM bind ret result_monad].
  - rewrite Hbad. reflexivity.
  - destruct (Hgood a (or_introl eq_refl)) as [b ->].
    rewrite IH; [reflexivity|]. intros a' Ha'. apply Hgood. right. exact Ha'.
Qed.

(** The exceptions of the loop are Python's own, never requests'. *)
Lemma observation_exception (item : json) (e : exn) :
  observation item = Raise e -> is_RequestException e = false.
Proof.
  unfold observation. cbn [bind ret result_monad].
  destruct item as [| b | z | x | s | l | fields]; cbn [getitem];
    try (intros [= <-]; reflexivity).
  destruct (dict_get fields "data") as [v | e1] eqn:E1.
  - destruct v as [| b | z | x | s | l | f]; cbn [strptime];
      try (intros [= <-]; reflexivity).
    destruct (strptime_date s); [| intros [= <-]; reflexivity].
    destruct (dict_get fields "cena") as [c | e2] eqn:E2.
    + destruct c as [| b | z | x | t | l | f]; cbn [float]; try discriminate;
        try (intros [= <-]; reflexivity).
      * destruct (double (inject_Z z)); [discriminate | intros [= <-]; reflexivity | discriminate].
      * destruct (float_of_str t); [discriminate | intros [= <-]; reflexivity].
    + intros [= <-]. clear E1. induction fields as [| [k v] r IH]; cbn [dict_get] in E2.
      * injection E2 as <-. reflexivity.
      * destruct (String.eqb k "cena"); [discriminate | exact (IH E2)].
  - intros [= <-]. induction fields as [| [k v] r IH]; cbn [dict_get] in E1.
    + injection E1 as <-. reflexivity.
    + destruct (String.eqb k "data"); [discriminate | exact (IH E1)].
Qed.

Lemma mapM_failure {A B} (f : A -> result B) (l : list A) (e : exn) :
  mapM f l = Raise e -> exists a, In a l /\ f a = Raise e.
Proof.
  induction l as [| a l IH]; cbn [mapM bind ret result_monad]; [discriminate|].
  destruct (f a) as [b | e'] eqn:Ea.
  - destruct (mapM f l) as [bs | e'']; [discriminate|].
    intros [= <-]. destruct (IH eq_refl) as (a' & Hin & Ha'). exists a'. split; [right|]; assumption.
  - intros [= <-]. exists a. split; [left; reflexivity | exact Ea].
Qed.

Lemma process_exception (items : list json) (e : exn) :
  process items [] [] = Raise e -> is_RequestException e = false.
Proof.
  rewrite process_as_map. cbn [bind ret result_monad].
  destruct (mapM observation items) as [obs | e'] eqn:E; [discriminate|].
  intros [= <-]. destruct (mapM_failure _ _ _ E) as (item & _ & H).
  exact (observation_exception item e' H).
Qed.

(** What [decode_response] can do: return a frame, or raise. *)
Lemma decode_response_cases (r : Response) :
  (exists df, decode_response r = Ok (Some df) /\ raise_for_status r = Ok tt /\ body r <> None) \/
  (exists e, decode_response r = Raise e /\ is_RequestException e = true /\
             ((400 <= status_code r < 600)%Z \/ body r = None)) \/
  (exists e, decode_response r = Raise e /\ is_RequestException e = false /\
             raise_for_status r = Ok tt /\ body r <> None).
Proof.
  unfold decode_response, raise_for_status, Response_json.
  destruct ((400 <=? status_code r)%Z && (status_code r <? 600)%Z) eqn:Hs.
  - right. left. exists (HTTPError (status_code r)). repeat split.
    left. apply andb_true_iff in Hs. destruct Hs as [H1 H2].
    apply Z.leb_le in H1. apply Z.ltb_lt in H2. lia.
  - destruct (body r) as [data |] eqn:Hb.
    + cbn [bind ret result_monad].
      destruct (iter data) as [items | e] eqn:Hi.
      * destruct (process items [] []) as [cols | e] eqn:Hp.
        -- left. eexists. repeat split. discriminate.
        -- right. right. exists e. repeat split; [exact (process_exception _ _ Hp) | discriminate].
      * right. right. exists e. repeat split; [| discriminate].
        destruct data; cbn [iter] in Hi; try discriminate; injection Hi as <-; reflexivity.
    + right. left. exists JSONDecodeError. repeat split. right. reflexivity.
Qed.

Lemma request_error_iff (o : get_outcome) :
  request_error o <-> exists e, decode o = Raise e /\ is_RequestException e = true.
Proof.
  destruct o as [msg | r]; cbn [request_error decode].
  - split; [intros _; exists (ConnectionError msg); split; reflexivity | tauto].
  - destruct (decode_response_cases r) as [(df & E & Hs & Hb) | [(e & E & He & Hr) | (e & E & He & Hs & Hb)]].
    + split.
      * intros [Hr | Hr]; [| congruence]. unfold raise_for_status in Hs.
        destruct Hr as [H1 H2]. apply Z.leb_le in H1. apply Z.ltb_lt in H2.
        rewrite H1, H2 in Hs. discriminate.
      * intros (e & E' & _). congruence.
    + split; [intros _; exists e; split; assumption | intros _; exact Hr].
    + split.
      * intros [Hr | Hr]; [| congruence]. unfold raise_for_status in Hs.
        destruct Hr as [H1 H2]. apply Z.leb_le in H1. apply Z.ltb_lt in H2.
        rewrite H1, H2 in Hs. discriminate.
      * intros (e' & E' & He'). congruence.
Qed.

Lemma decode_never_none (o : get_outcome) : decode o <> Ok None.
Proof.
  destruct o as [msg | r]; cbn [decode]; [discriminate|].
  destruct (decode_response_cases r) as [(df & E & _) | [(e & E & _) | (e & E & _)]];
    rewrite E; discriminate.
Qed.

(** X1. [get_gold_data] returns [None] for a request error and for nothing
    else. *)
Theorem none_iff_request_error (start_date end_date : string) (w : world) :
  fst (get_gold_data start_date end_date w) = Ok None <->
  request_error (network w (api_url start_date end_date)).
Proof.
  rewrite (get_gold_data_unfold strptime_date float_of_str). cbv zeta.
  rewrite request_error_iff.
  pose proof (decode_never_none (network w (api_url start_date end_date))) as Hn.
  destruct (decode (network w (api_url start_date end_date))) as [df | e].
  - cbn [fst]. split; [intros [= ->]; congruence | intros (e & [=] & _)].
  - destruct (is_RequestException e) eqn:He; cbn [fst].
    + split; [intros _; exists e; split; [reflexivity | exact He] | reflexivity].
    + split; [discriminate | intros (e' & [= <-] & He'); congruence].
Qed.

Lemma statistics_table_total (st : Summary) :
  statistics_table st =
  Ok (Table [ Thead (Tr [Th "Statistic"; Th "Value"; Th "Definition"]);
              Tbody (expected_rows st) ] "table table-striped").
Proof. reflexivity. Qed.

Lemma has_value_dec (prices : list num) : {has_value prices} + {~ has_value prices}.
Proof.
  destruct (dropna prices) as [| p r] eqn:E.
  - right. rewrite has_value_dropna. congruence.
  - left. rewrite has_value_dropna. congruence.
Qed.

Lemma analysis_statistics_exception (prices : list num) (ex : exn) :
  analysis_statistics prices = Raise ex -> ~ has_value prices /\ ex = KeyError "0".
Proof.
  intros H. destruct (has_value_dec prices) as [V | V].
  - destruct (analysis_statistics_total prices V) as (m & rest & _ & E). congruence.
  - rewrite (analysis_statistics_no_value prices V) in H. injection H as <-. auto.
Qed.

(** The callback's result as a function of what the fetch returned. *)
Lemma render_content_of_fetch (tab start_date end_date : string) (w : world) :
  fst (render_content tab start_date end_date w) =
  match fst (get_gold_data start_date end_date w) with
  | Raise ex => Raise ex
  | Ok None => Ok (Some error_message)
  | Ok (Some df) =>
      if String.eqb tab "gold" then Ok (Some (chart_view plot_png_base64 start_date end_date df))
      else if String.eqb tab "analysis" then
        match analysis_statistics (Price df) with
        | Ok st => Ok (Some (analysis_view start_date end_date st))
        | Raise ex => Raise ex
        end
      else Ok None
  end.
Proof.
  unfold render_content. cbn [bind M_monad].
  destruct (get_gold_data start_date end_date w) as [[[df |] | ex] w'];
    [| reflexivity | reflexivity].
  cbn [fst]. destruct (String.eqb tab "gold"); [reflexivity|].
  destruct (String.eqb tab "analysis"); [| reflexivity].
  unfold lift. cbn [bind M_monad ret].
  destruct (analysis_statistics (Price df)) as [st | ex]; [| reflexivity].
  rewrite statistics_table_total. reflexivity.
Qed.

(** X2. The error message of line 100 is shown for a request error and for nothing else. *)
Theorem error_message_iff_request_error (tab start_date end_date : string) (w : world) :
  fst (render_content tab start_date end_date w) = Ok (Some error_message) <->
  request_error (network w (api_url start_date end_date)).
Proof.
  rewrite render_content_of_fetch.
  rewrite (get_gold_data_unfold strptime_date float_of_str). cbv zeta.
  rewrite request_error_iff.
  pose proof (decode_never_none (network w (api_url start_date end_date))) as Hn.
  destruct (decode (network w (api_url start_date end_date))) as [[df |] | e];
    [| congruence |].
  - cbn [fst]. split; [| intros (e & [=] & _)].
    destruct (String.eqb tab "gold"); [discriminate|].
    destruct (String.eqb tab "analysis"); [| discriminate].
    destruct (analysis_statistics (Price df)); discriminate.
  - destruct (is_RequestException e) eqn:He; cbn [fst].
    + split; [intros _; exists e; split; [reflexivity | exact He] | reflexivity].
    + split; [discriminate | intros (e' & [= <-] & He'); congruence].
Qed.

(** X3. A callback prints one console line when its fetch meets a request
    error, and nothing otherwise. *)
Theorem console_line_iff_request_error (tab start_date end_date : string) (w : world) :
  (request_error (network w (api_url start_date end_date)) ->
   exists e, is_RequestException e = true /\
             printed (snd (render_content tab start_date end_date w)) =
               ("Error fetching data: ", e) :: printed w) /\
  (~ request_error (network w (api_url start_date end_date)) ->
   printed (snd (render_content tab start_date end_date w)) = printed w).
Proof.
  rewrite (render_content_world strptime_date float_of_str plot_png_base64).
  rewrite (get_gold_data_unfold strptime_date float_of_str). cbv zeta.
  rewrite request_error_iff.
  destruct (decode (network w (api_url start_date end_date))) as [df | e].
  - split; [intros (e & [=] & _) | reflexivity].
  - destruct (is_RequestException e) eqn:He.
    + split; [intros _; exists e; split; [exact He | reflexivity]|].
      intros H. exfalso. apply H. exists e. split; [reflexivity | exact He].
    + split; [intros (e' & [= <-] & He'); congruence | reflexivity].
Qed.

(** X4. No exception of the requests library leaves the callback, and an
    exception that does leave it was not reported on the console. *)
Theorem request_exceptions_never_escape
    (tab start_date end_date : string) (w : world) (ex : exn) :
  fst (render_content tab start_date end_date w) = Raise ex ->
  is_RequestException ex = false /\
  printed (snd (render_content tab start_date end_date w)) = printed w.
Proof.
  rewrite render_content_of_fetch.
  rewrite (render_content_world strptime_date float_of_str plot_png_base64).
  rewrite (get_gold_data_unfold strptime_date float_of_str). cbv zeta.
  destruct (decode (network w (api_url start_date end_date))) as [[df |] | e].
  - cbn [fst snd]. destruct (String.eqb tab "gold"); [discriminate|].
    destruct (String.eqb tab "analysis"); [| discriminate].
    destruct (analysis_statistics (Price df)) as [st | e] eqn:E; [discriminate|].
    intros [= <-]. destruct (analysis_statistics_exception _ _ E) as [_ ->].
    split; reflexivity.
  - discriminate.
  - destruct (is_RequestException e) eqn:He; cbn [fst snd]; [discriminate|].
    intros [= <-]. split; [exact He | reflexivity].
Qed.

(** X5. After a successful fetch the callback raises only on the analysis
    tab, only when the price column has no value that is not nan (it is
    empty, or every price is nan), and then [KeyError]. *)
Theorem fetched_callback_raises_iff_no_value
    (tab start_date end_date : string) (w : world) (df : DataFrame) (ex : exn) :
  fst (get_gold_data start_date end_date w) = Ok (Some df) ->
  (fst (render_content tab start_date end_date w) = Raise ex <->
   tab = "analysis" /\ ~ has_value (Price df) /\ ex = KeyError "0").
Proof.
  intros Hf. rewrite render_content_of_fetch, Hf.
  destruct (String.eqb tab "gold") eqn:Hg.
  - apply String.eqb_eq in Hg. subst tab. split; [discriminate | intros [[=] _]].
  - destruct (String.eqb tab "analysis") eqn:Ha.
    + apply String.eqb_eq in Ha. subst tab.
      destruct (analysis_statistics (Price df)) as [st | e] eqn:E.
      * split; [discriminate|]. intros (_ & Hp & _).
        rewrite (analysis_statistics_no_value _ Hp) in E. discriminate.
      * destruct (analysis_statistics_exception _ _ E) as [Hp ->].
        split; [intros [= <-]; auto | intros (_ & _ & ->); reflexivity].
    + apply String.eqb_neq in Ha. split; [discriminate | intros [H _]; contradiction].
Qed.

Lemma decode_array (r : Response) (items : list json) :
  raise_for_status r = Ok tt -> body r = Some (JArr items) ->
  decode_response r =
  (obs <- mapM observation items ;;
   ret (Some (mkDataFrame (map (fun o => Midnight (fst o)) obs) (map snd obs)))).
Proof.
  intros Hs Hb. unfold decode_response, Response_json. rewrite Hs, Hb.
  cbn [bind ret result_monad iter]. rewrite process_as_map. cbn [bind ret result_monad].
  destruct (mapM observation items) as [obs | e]; [| reflexivity].
  cbn [app fst snd]. unfold to_datetime. rewrite map_map. reflexivity.
Qed.

(** X6. The first element of the array that fails decides the exception of
    the fetch and of the callback; what follows it is not read. *)
Theorem first_bad_element_aborts
    (tab start_date end_date : string) (w : world) (r : Response)
    (good : list json) (bad : json) (rest : list json) (ex : exn) :
  network w (api_url start_date end_date) = GetReturns r ->
  raise_for_status r = Ok tt ->
  body r = Some (JArr (good ++ bad :: rest)) ->
  (forall item, In item good -> exists o, observation item = Ok o) ->
  observation bad = Raise ex ->
  fst (get_gold_data start_date end_date w) = Raise ex /\
  fst (render_content tab start_date end_date w) = Raise ex.
Proof.
  intros Hnet Hs Hb Hgood Hbad.
  assert (G : fst (get_gold_data start_date end_date w) = Raise ex).
  { rewrite (get_gold_data_unfold strptime_date float_of_str). cbv zeta.
    rewrite Hnet. cbn [decode]. rewrite (decode_array r _ Hs Hb).
    rewrite (mapM_first_failure _ good bad rest ex Hgood Hbad). cbn [bind result_monad].
    rewrite (observation_exception bad ex Hbad). reflexivity. }
  split; [exact G|]. rewrite render_content_of_fetch, G. reflexivity.
Qed.

(** X7. A frame is returned only for a response that passed the status
    check and whose every element was read; its columns are the elements'
    dates and prices, so they have the same length. *)
Theorem fetched_frame_inversion
    (start_date end_date : string) (w : world) (df : DataFrame) :
  fst (get_gold_data start_date end_date w) = Ok (Some df) ->
  exists r data items obs,
    network w (api_url start_date end_date) = GetReturns r /\
    raise_for_status r = Ok tt /\
    body r = Some data /\
    iter data = Ok items /\
    Forall2 (fun item o => observation item = Ok o) items obs /\
    Date df = map (fun o => Midnight (fst o)) obs /\
    Price df = map snd obs /\
    List.length (Date df) = List.length items /\
    List.length (Price df) = List.length items.
Proof.
  rewrite (get_gold_data_unfold strptime_date float_of_str). cbv zeta.
  destruct (network w (api_url start_date end_date)) as [msg | r]; [discriminate|].
  cbn [decode]. unfold decode_response, raise_for_status, Response_json.
  destruct ((400 <=? status_code r)%Z && (status_code r <? 600)%Z) eqn:Hs; [discriminate|].
  destruct (body r) as [data |] eqn:Hb; [| discriminate].
  cbn [bind ret result_monad].
  destruct (iter data) as [items | e] eqn:Hi; [| destruct (is_RequestException e); discriminate].
  rewrite process_as_map. cbn [bind ret result_monad].
  destruct (mapM observation items) as [obs | e] eqn:Hm;
    [| destruct (is_RequestException e); discriminate].
  cbn [fst snd app]. intros [= <-].
  apply mapM_ok in Hm. pose proof (Forall2_length Hm) as Hlen.
  exists r, data, items, obs. unfold raise_for_status. rewrite Hs.
  cbn [Date Price]. unfold to_datetime. rewrite map_map, !length_map.
  repeat split; auto.
Qed.

(** X8. A decoded body that is no array.  null, a boolean or a number cannot be
    iterated; the keys of an object and the characters of a string cannot
    be indexed by "data"; an empty object or string gives an empty frame. *)
Theorem non_array_body
    (start_date end_date : string) (w : world) (r : Response) (data : json) :
  network w (api_url start_date end_date) = GetReturns r ->
  raise_for_status r = Ok tt ->
  body r = Some data ->
  match data with
  | JArr _ => True
  | JObj [] | JStr EmptyString =>
      fst (get_gold_data start_date end_date w) = Ok (Some (mkDataFrame [] []))
  | JNull | JBool _ | JInt _ | JFloat _ | JObj (_ :: _) | JStr (String _ _) =>
      fst (get_gold_data start_date end_date w) = Raise TypeError
  end.
Proof.
  intros Hnet Hs Hb.
  rewrite (get_gold_data_unfold strptime_date float_of_str). cbv zeta.
  rewrite Hnet. cbn [decode]. unfold decode_response, Response_json. rewrite Hs, Hb.
  destruct data as [| b | z | x | [| c s] | l | [| [k v] items]]; first [exact I | reflexivity].
Qed.

Lemma failed_fetch_iff (net : string -> get_outcome) (ev : string * string * string) :
  failed_fetch net ev = true <-> request_error (net (event_url ev)).
Proof.
  unfold failed_fetch. destruct (net (event_url ev)) as [msg | r]; cbn [request_error].
  - tauto.
  - rewrite orb_true_iff, andb_true_iff, Z.leb_le, Z.ltb_lt.
    destruct (body r); split; intros [H | H]; auto; discriminate.
Qed.

Lemma render_content_network (tab start_date end_date : string) (w : world) :
  network (snd (render_content tab start_date end_date w)) = network w.
Proof.
  rewrite (render_content_world strptime_date float_of_str plot_png_base64).
  apply get_gold_data_network.
Qed.

Lemma render_content_printed (tab start_date end_date : string) (w : world) :
  List.length (printed (snd (render_content tab start_date end_date w))) =
  ((if failed_fetch (network w) (tab, start_date, end_date) then 1 else 0) +
   List.length (printed w))%nat.
Proof.
  rewrite (render_content_world strptime_date float_of_str plot_png_base64).
  rewrite (get_gold_data_unfold strptime_date float_of_str). cbv zeta.
  pose proof (failed_fetch_iff (network w) (tab, start_date, end_date)) as Hf.
  rewrite request_error_iff in Hf. cbn [event_url] in Hf.
  destruct (decode (network w (api_url start_date end_date))) as [df | e].
  - destruct (failed_fetch _ _); [| reflexivity].
    destruct (proj1 Hf eq_refl) as (e & [=] & _).
  - destruct (is_RequestException e) eqn:He.
    + destruct (failed_fetch _ _); [reflexivity|].
      assert (false = true) by (apply Hf; exists e; auto). discriminate.
    + destruct (failed_fetch _ _); [| reflexivity].
      destruct (proj1 Hf eq_refl) as (e' & [= <-] & He'). congruence.
Qed.

(** X9. Over a session the console holds one line per failed fetch, and the
    network is never touched. *)
Theorem session_console_counts_failures
    (events : list (string * string * string)) (w : world) :
  network (run_callbacks events w) = network w /\
  List.length (printed (run_callbacks events w)) =
    (List.length (filter (failed_fetch (network w)) events) + List.length (printed w))%nat.
Proof.
  revert w. induction events as [| [[tab start_date] end_date] rest IH]; intros w.
  - split; reflexivity.
  - cbn [run_callbacks filter].
    destruct (IH (snd (render_content tab start_date end_date w))) as [In Ip].
    rewrite render_content_network in In, Ip. split; [exact In|].
    rewrite Ip, render_content_printed.
    destruct (failed_fetch (network w) (tab, start_date, end_date)); cbn [List.length]; lia.
Qed.

End FetchProperties.

(** ** The reported extremes *)

(** X11. For every price column with a value that is not nan, the reported
    minimum is at most the reported maximum and the reported mode lies
    between them. *)
Theorem mode_within_reported_range (prices : list num) :
  has_value prices ->
  exists st,
    analysis_statistics prices = Ok st /\
    num_le (min_price st) (max_price st) /\
    num_le (min_price st) (mode st) /\
    num_le (mode st) (max_price st).
Proof.
  intros H.
  destruct (analysis_statistics_total prices H) as (m & rest & Em & Hst).
  destruct (Series_mode_head prices H) as (m' & rest' & Em' & Hin & Hn & _).
  rewrite Em in Em'. injection Em' as <- <-.
  destruct (Series_min_spec prices H) as (Imin & Nmin & Lmin).
  destruct (Series_max_spec prices H) as (Imax & Nmax & Lmax).
  eexists. split; [exact Hst|]. cbn [min_price max_price mode]. unfold num_le.
  split; [| split]; apply round_2_monotone.
  - apply Lmin; assumption.
  - apply Lmin; assumption.
  - apply Lmax; assumption.
Qed.

(** X11, witness: the column 3, 1, 3, 1, 2. *)
Lemma mode_within_reported_range_witness :
  exists st,
    analysis_statistics tied_prices = Ok st /\
    num_le (min_price st) (max_price st) /\
    num_le (min_price st) (mode st) /\
    num_le (mode st) (max_price st).
Proof.
  apply (mode_within_reported_range tied_prices).
  exists (double 3). split; [left; reflexivity | vm_compute; reflexivity].
Defined.

(** The average is not so bounded: the mean of three times 0.025 is the
    float above 0.025, reported as 0.03, while the maximum is reported as
    0.02. *)
Example average_above_maximum :
  analysis_statistics (map double [0.025; 0.025; 0.025]) =
    Ok {| avg_price := double 0.03; min_price := double 0.02; max_price := double 0.02;
          q1 := double 0.02; q2 := double 0.02; q3 := double 0.02; mode := double 0.02;
          std_dev := Rat 0; iqr := Rat 0 |} /\
  num_leb (double 0.03) (double 0.02) = false.
Proof. split; vm_compute; reflexivity. Qed.

(** The mean depends on the order in which the prices are summed. *)
Example mean_depends_on_order :
  round (Series_mean (map double [321.41; 360.46; 209.69; 353.78])) 2 = double 311.33 /\
  round (Series_mean (map double [209.69; 353.78; 321.41; 360.46])) 2 = double 311.34.
Proof. split; vm_compute; reflexivity. Qed.

(** ** One observation *)

Lemma num_add_zero_l (q : Q) : double q = Rat q -> num_add (Rat 0) (Rat q) = Rat q.
Proof.
  intros H. cbn [num_add]. rewrite <- H. apply double_comp. ring.
Qed.

Lemma num_add_zero_r (q : Q) : double q = Rat q -> num_add (Rat q) (Rat 0) = Rat q.
Proof.
  intros H. cbn [num_add]. rewrite <- H. apply double_comp. ring.
Qed.

Lemma num_sub_self (q : Q) : num_sub (Rat q) (Rat q) = Rat 0.
Proof. cbn [num_sub num_opp num_add]. apply double_zero. ring. Qed.

Lemma of_nat_1 : of_nat 1 = Rat 1.
Proof. vm_compute. reflexivity. Qed.

Lemma Series_mean_single (q : Q) : double q = Rat q -> Series_mean [Rat q] = Rat q.
Proof.
  intros H. unfold Series_mean. cbn [dropna filter isnan negb fillna0 map List.length].
  rewrite of_nat_1. unfold np_sum. cbn [List.length pairwise_sum Nat.ltb Nat.leb fold_left].
  rewrite !(num_add_zero_l q H). cbn [num_div]. change (Qeq_bool 1 0) with false. cbv iota.
  rewrite <- H. apply double_comp. field.
Qed.

Lemma virtual_index_single (p : Q) :
  In p [0.25; 0.5; 0.75] ->
  num_mul (of_nat (1 - 1)) (double p) = Rat 0.
Proof. intros [<- | [<- | [<- | []]]]; vm_compute; reflexivity. Qed.

Lemma Series_quantile_single (q p : Q) :
  double q = Rat q -> In p [0.25; 0.5; 0.75] -> Series_quantile [Rat q] p = Rat q.
Proof.
  intros H Hp. unfold Series_quantile.
  change (sort_values (dropna [Rat q])) with [Rat q]. cbv zeta.
  change (List.length [Rat q]) with 1%nat.
  rewrite (virtual_index_single p Hp).
  change (Z.to_nat (Qfloor 0)) with 0%nat. change (Nat.min (0 + 1) (1 - 1)) with 0%nat.
  cbn [nth].
  change (num_sub (Rat 0) (Rat (inject_Z (Qfloor 0)))) with (num_sub (Rat 0) (Rat 0)).
  rewrite (num_sub_self 0). unfold lerp.
  replace (num_leb (double 0.5) (Rat 0)) with false by (vm_compute; reflexivity).
  rewrite (num_sub_self q).
  replace (num_mul (Rat 0) (Rat 0)) with (Rat 0) by (vm_compute; reflexivity).
  apply num_add_zero_r, H.
Qed.

Lemma Series_mode_single (q : Q) : Series_mode [Rat q] = [Rat q].
Proof.
  unfold Series_mode. cbn [dropna filter isnan negb]. cbv zeta.
  unfold max_count, count. cbn [unique filter map num_eqb].
  rewrite (Qeq_bool_refl q). cbn [List.length fold_right Nat.max Nat.eqb filter].
  reflexivity.
Qed.

(** X13. The analysis of one observation [x], a binary64 number: the
    average, minimum, maximum, the three quartiles and the mode are all
    [round(x, 2)], the standard deviation is nan, and the interquartile
    range is 0 when [round(x, 2)] is finite and nan when it overflows. *)
Theorem single_observation_summary (q : Q) :
  double q = Rat q ->
  analysis_statistics [Rat q] =
    Ok (let r := round (Rat q) 2 in
        mkSummary r r r r r r r NaN (match r with Rat _ => Rat 0 | _ => NaN end)).
Proof.
  intros H. unfold analysis_statistics.
  rewrite (Series_mode_single q). cbn [getitem0 bind ret result_monad].
  rewrite (Series_mean_single q H).
  rewrite !(Series_quantile_single q _ H) by (cbn; auto).
  change (Series_min [Rat q]) with (Rat q). change (Series_max [Rat q]) with (Rat q).
  change (Series_std [Rat q]) with NaN. rewrite round_2_nan. cbv zeta.
  f_equal. f_equal.
  destruct (round (Rat q) 2) as [r | s |].
  - rewrite num_sub_self. vm_compute. reflexivity.
  - replace (num_sub (Inf s) (Inf s)) with NaN by (destruct s; reflexivity).
    apply round_2_nan.
  - apply round_2_nan.
Qed.

(** X13, witness: the price 5. *)
Lemma single_observation_summary_witness :
  double 5 = Rat 5 /\
  analysis_statistics [Rat 5] =
    Ok (let r := round (Rat 5) 2 in
        mkSummary r r r r r r r NaN (match r with Rat _ => Rat 0 | _ => NaN end)).
Proof.
  assert (H : double 5 = Rat 5) by (vm_compute; reflexivity).
  split; [exact H|]. apply (single_observation_summary 5). exact H.
Defined.

Example single_observation_5 :
  analysis_statistics [Rat 5] =
    Ok (mkSummary (Rat 5) (Rat 5) (Rat 5) (Rat 5) (Rat 5) (Rat 5) (Rat 5) NaN (Rat 0)).
Proof. vm_compute. reflexivity. Qed.

(** A price near the largest float: every figure is inf and the
    interquartile range, inf - inf, is nan. *)
Example single_huge_observation :
  analysis_statistics [double 1e308] =
    Ok (mkSummary (Inf false) (Inf false) (Inf false) (Inf false) (Inf false) (Inf false)
                  (Inf false) NaN NaN).
Proof. vm_compute. reflexivity. Qed.

(** ** The order of the observations *)

Lemma binary64_eq (x y : num) :
  binary64 x -> binary64 y -> num_eqb x y = true -> x = y.
Proof.
  destruct x as [p | s |], y as [q | t |]; cbn; try discriminate.
  - intros Hp Hq E. apply Qeq_bool_iff in E.
    rewrite <- Hp, <- Hq. apply double_comp, E.
  - intros _ _ E. apply eqb_prop in E. congruence.
Qed.

Lemma filter_perm {A} (f : A -> bool) (l l' : list A) :
  Permutation l l' -> Permutation (filter f l) (filter f l').
Proof.
  induction 1 as [| a l l' _ IH | a b l | l l' l'' _ IH1 _ IH2]; cbn [filter].
  - constructor.
  - destruct (f a); [constructor|]; exact IH.
  - destruct (f a), (f b); try apply Permutation_refl. apply perm_swap.
  - exact (Permutation_trans IH1 IH2).
Qed.

Lemma count_perm (x : num) (xs ys : list num) :
  Permutation xs ys -> count x xs = count x ys.
Proof. intros H. unfold count. apply Permutation_length, filter_perm, H. Qed.

(** Two sorted lists of binary64 numbers with the same elements are the
    same list. *)
Lemma sorted_perm_eq (l1 l2 : list num) :
  Forall binary64 l1 -> (forall x, In x l1 -> isnan x = false) ->
  StronglySorted (fun x y => is_true (NumOrder.leb x y)) l1 ->
  StronglySorted (fun x y => is_true (NumOrder.leb x y)) l2 ->
  Permutation l1 l2 -> l1 = l2.
Proof.
  revert l2. induction l1 as [| a r1 IH]; intros l2 B N S1 S2 P.
  - apply Permutation_nil in P. congruence.
  - destruct l2 as [| b r2]; [apply Permutation_sym, Permutation_nil in P; discriminate|].
    assert (E : a = b).
    { apply StronglySorted_inv in S1. destruct S1 as [_ F1].
      apply StronglySorted_inv in S2. destruct S2 as [_ F2].
      rewrite Forall_forall in F1, F2.
      assert (Ib : In b (a :: r1)) by (apply (Permutation_in _ (Permutation_sym P)); left; reflexivity).
      assert (Ia : In a (b :: r2)) by (apply (Permutation_in _ P); left; reflexivity).
      assert (Na : isnan a = false) by (apply N; left; reflexivity).
      assert (Nb : isnan b = false) by (apply N, Ib).
      rewrite Forall_forall in B.
      apply binary64_eq; [apply B; left; reflexivity | apply B, Ib|].
      apply num_leb_antisym.
      - destruct Ib as [-> | Ib]; [apply num_leb_refl, Na|].
        specialize (F1 b Ib). unfold is_true, NumOrder.leb in F1.
        destruct b; [exact F1 | exact F1 | discriminate Nb].
      - destruct Ia as [<- | Ia]; [apply num_leb_refl, Nb|].
        specialize (F2 a Ia). unfold is_true, NumOrder.leb in F2.
        destruct a; [exact F2 | exact F2 | discriminate Na]. }
    subst b. f_equal. apply IH.
    + inversion B; assumption.
    + intros x Hx. apply N. right. exact Hx.
    + apply StronglySorted_inv in S1. apply S1.
    + apply StronglySorted_inv in S2. apply S2.
    + apply (Permutation_cons_inv P).
Qed.

Lemma sort_values_dropna_perm (xs ys : list num) :
  Permutation xs ys -> Forall binary64 xs ->
  sort_values (dropna xs) = sort_values (dropna ys).
Proof.
  intros P B.
  assert (Pd : Permutation (dropna xs) (dropna ys)) by (apply filter_perm, P).
  apply sorted_perm_eq.
  - rewrite Forall_forall in *. intros x Hx.
    apply (Permutation_in _ (Permutation_sym (sort_values_perm _))) in Hx.
    apply In_dropna in Hx. apply B, Hx.
  - intros x Hx. apply (Permutation_in _ (Permutation_sym (sort_values_perm _))) in Hx.
    apply In_dropna in Hx. apply Hx.
  - apply sort_values_sorted.
  - apply sort_values_sorted.
  - apply Permutation_trans with (dropna xs); [apply Permutation_sym, sort_values_perm|].
    apply Permutation_trans with (dropna ys); [exact Pd | apply sort_values_perm].
Qed.

Lemma Series_quantile_perm (xs ys : list num) (q : Q) :
  Permutation xs ys -> Forall binary64 xs ->
  Series_quantile xs q = Series_quantile ys q.
Proof.
  intros P B. unfold Series_quantile. rewrite (sort_values_dropna_perm xs ys P B). reflexivity.
Qed.

Lemma has_value_perm (xs ys : list num) : Permutation xs ys -> has_value xs -> has_value ys.
Proof. intros P (p & Hp & Hn). exists p. split; [apply (Permutation_in _ P), Hp | exact Hn]. Qed.

(** X12. Reordering the observations, all binary64 numbers, does not
    change the reported minimum, maximum, quartiles, mode and interquartile
    range.  (The mean and the standard deviation are sums and may change:
    Example [mean_depends_on_order].) *)
Theorem order_statistics_ignore_order (xs ys : list num) :
  Permutation xs ys -> Forall binary64 xs -> has_value xs ->
  exists st st',
    analysis_statistics xs = Ok st /\ analysis_statistics ys = Ok st' /\
    min_price st = min_price st' /\ max_price st = max_price st' /\
    q1 st = q1 st' /\ q2 st = q2 st' /\ q3 st = q3 st' /\
    mode st = mode st' /\ iqr st = iqr st'.
Proof.
  intros P B H. pose proof (has_value_perm xs ys P H) as H'.
  assert (B' : Forall binary64 ys).
  { rewrite Forall_forall in *. intros x Hx. apply B, (Permutation_in _ (Permutation_sym P)), Hx. }
  rewrite Forall_forall in B, B'.
  destruct (analysis_statistics_total xs H) as (m & rest & Em & ->).
  destruct (analysis_statistics_total ys H') as (m' & rest' & Em' & ->).
  destruct (Series_mode_head xs H) as (m0 & r0 & E0 & Im & Nm & Cm & Lm).
  rewrite Em in E0. injection E0 as <- <-.
  destruct (Series_mode_head ys H') as (m0 & r0 & E0 & Im' & Nm' & Cm' & Lm').
  rewrite Em' in E0. injection E0 as <- <-.
  destruct (Series_min_spec xs H) as (I1 & N1 & L1).
  destruct (Series_min_spec ys H') as (I1' & N1' & L1').
  destruct (Series_max_spec xs H) as (I2 & N2 & L2).
  destruct (Series_max_spec ys H') as (I2' & N2' & L2').
  assert (Emin : Series_min xs = Series_min ys).
  { apply binary64_eq; [apply B, I1 | apply B', I1'|]. apply num_leb_antisym.
    - apply L1; [apply (Permutation_in _ (Permutation_sym P)), I1' | exact N1'].
    - apply L1'; [apply (Permutation_in _ P), I1 | exact N1]. }
  assert (Emax : Series_max xs = Series_max ys).
  { apply binary64_eq; [apply B, I2 | apply B', I2'|]. apply num_leb_antisym.
    - apply L2'; [apply (Permutation_in _ P), I2 | exact N2].
    - apply L2; [apply (Permutation_in _ (Permutation_sym P)), I2' | exact N2']. }
  assert (Emode : m = m').
  { assert (Imx : In m' xs) by (apply (Permutation_in _ (Permutation_sym P)), Im').
    assert (Imy : In m ys) by (apply (Permutation_in _ P), Im).
    pose proof (Cm m' Imx) as C1. pose proof (Cm' m Imy) as C2.
    rewrite (count_perm m xs ys P) in C1. rewrite (count_perm m' xs ys P) in C1.
    apply binary64_eq; [apply B, Im | apply B', Im'|]. apply num_leb_antisym.
    - apply Lm; [exact Imx|]. rewrite !(count_perm _ xs ys P). lia.
    - apply Lm'; [exact Imy|]. lia. }
  eexists _, _. split; [reflexivity|]. split; [reflexivity|].
  cbn [min_price max_price q1 q2 q3 mode iqr].
  rewrite Emin, Emax, Emode, !(Series_quantile_perm xs ys _ P (proj2 (Forall_forall _ _) B)).
  repeat split.
Qed.

(** X12, witness: 300, 100, 400, 200 against 100, 200, 300, 400. *)
Lemma order_statistics_ignore_order_witness :
  exists st st',
    analysis_statistics (map double [300; 100; 400; 200]) = Ok st /\
    analysis_statistics test_prices = Ok st' /\
    min_price st = min_price st' /\ max_price st = max_price st' /\
    q1 st = q1 st' /\ q2 st = q2 st' /\ q3 st = q3 st' /\
    mode st = mode st' /\ iqr st = iqr st'.
Proof.
  apply (order_statistics_ignore_order (map double [300; 100; 400; 200]) test_prices).
  - unfold test_prices. cbn [map].
    apply Permutation_trans with (double 100 :: double 300 :: double 400 :: double 200 :: nil);
      [apply perm_swap|].
    apply perm_skip.
    apply Permutation_trans with (double 300 :: double 200 :: double 400 :: nil);
      [apply perm_skip, perm_swap|].
    apply Permutation_trans with (double 200 :: double 300 :: double 400 :: nil);
      [apply perm_swap|].
    apply Permutation_refl.
  - cbn [map]. repeat (apply Forall_cons; [vm_compute; reflexivity|]). apply Forall_nil.
  - exists (double 300). split; [left; reflexivity | vm_compute; reflexivity].
Defined.

(** ** The chart tab and the page *)

Lemma chart_statistics_no_value (prices : list num) :
  ~ has_value prices -> chart_statistics prices = mkChartSummary NaN NaN NaN.
Proof.
  intros H. rewrite has_value_dropna in H.
  assert (E : dropna prices = [])
    by (destruct (dropna prices); [reflexivity | exfalso; apply H; discriminate]).
  unfold chart_statistics, Series_mean, Series_max, Series_min. rewrite E.
  rewrite round_2_nan. reflexivity.
Qed.

Section PageProperties.

Variable strptime_date : string -> option date.
Variable float_of_str : string -> option num.
Variable plot_png_base64 : list Timestamp -> list num -> string.

Local Abbreviation get_gold_data := (get_gold_data strptime_date float_of_str).
Local Abbreviation render_content :=
  (render_content strptime_date float_of_str plot_png_base64).

(** X14. After a successful fetch the chart tab never raises: it returns
    its view whatever the prices are.  Each of its three figures is the
    statistic passed through [round(., 2)]; the minimum is at most the
    maximum when the column has a value that is not nan, and all three are
    nan when it has none. *)
Theorem chart_tab_summary
    (start_date end_date : string) (w : world) (df : DataFrame) :
  fst (get_gold_data start_date end_date w) = Ok (Some df) ->
  let st := chart_statistics (Price df) in
  fst (render_content "gold" start_date end_date w) =
    Ok (Some (chart_view plot_png_base64 start_date end_date df)) /\
  rounded_to_2 (Series_mean (Price df)) (chart_avg_price st) /\
  rounded_to_2 (Series_max (Price df)) (chart_max_price st) /\
  rounded_to_2 (Series_min (Price df)) (chart_min_price st) /\
  (has_value (Price df) -> num_le (chart_min_price st) (chart_max_price st)) /\
  (~ has_value (Price df) -> st = mkChartSummary NaN NaN NaN).
Proof.
  intros Hf st.
  split.
  { rewrite (render_content_of_fetch strptime_date float_of_str plot_png_base64), Hf.
    reflexivity. }
  unfold st, chart_statistics. cbn [chart_avg_price chart_max_price chart_min_price].
  repeat (split; [apply round_2_spec|]).
  split.
  - intros H. destruct (Series_min_spec _ H) as (_ & _ & Lmin).
    destruct (Series_max_spec _ H) as (Imax & Nmax & _).
    apply round_2_monotone, Lmin; assumption.
  - apply chart_statistics_no_value.
Qed.

(** X15. The page and the callback fit: the ids of the layout are distinct,
    the output of the callback is one of them, the first call receives
    "gold", "2024-01-01" and today's date, and for every tab the page offers
    the callback answers a successful fetch with content, except that the
    analysis tab raises KeyError when no price is a value. *)
Theorem layout_serves_callback (today : string) :
  NoDup (ids (app_layout today)) /\
  In (fst callback_output) (ids (app_layout today)) /\
  map (fun i => get_property (app_layout today) (fst i) (snd i)) callback_inputs =
    [Some "gold"; Some "2024-01-01"; Some today] /\
  forall tab, In tab (tab_values "tabs-1" (app_layout today)) ->
    forall start_date end_date w df,
      fst (get_gold_data start_date end_date w) = Ok (Some df) ->
      (has_value (Price df) \/ tab = "gold" ->
       exists content, fst (render_content tab start_date end_date w) = Ok (Some content)) /\
      (~ has_value (Price df) -> tab = "analysis" ->
       fst (render_content tab start_date end_date w) = Raise (KeyError "0")).
Proof.
  split; [| split; [| split]].
  - cbn. repeat constructor; cbn; intuition discriminate.
  - cbn. auto.
  - reflexivity.
  - intros tab Ht start_date end_date w df Hf.
    rewrite (render_content_of_fetch strptime_date float_of_str plot_png_base64), Hf.
    cbn in Ht. destruct Ht as [<- | [<- | []]]; cbn [String.eqb Ascii.eqb Bool.eqb].
    + split; [intros _; eexists; reflexivity | discriminate].
    + split.
      * intros [H | H]; [| discriminate H].
        destruct (analysis_statistics_total _ H) as (m & rest & _ & ->).
        eexists. reflexivity.
      * intros H _. rewrite (analysis_statistics_no_value _ H). reflexivity.
Qed.

End PageProperties.

(** ** The further properties on example inputs *)

(** X4, witness: an element without price. *)
Lemma request_exceptions_never_escape_witness :
  is_RequestException (KeyError "cena") = false /\
  printed (snd (render_content sample_strptime sample_float sample_png "gold" "2024-01-01"
                  "2024-01-31" (fresh (answering 200 (Some second_without_price))))) = [].
Proof.
  apply (request_exceptions_never_escape sample_strptime sample_float sample_png
           "gold" "2024-01-01" "2024-01-31" (fresh (answering 200 (Some second_without_price)))
           (KeyError "cena")).
  vm_compute. reflexivity.
Defined.

(** X5, witness: one record whose price is the string nan.  The fetch
    returns a frame of one row and the analysis tab raises. *)
Lemma fetched_callback_raises_iff_no_value_witness :
  fst (get_gold_data sample_strptime sample_float "2024-01-01" "2024-01-31"
         (fresh (answering 200 (Some nan_price)))) =
    Ok (Some (mkDataFrame [Midnight (mkDate 2024 1 2)] [NaN])) /\
  (fst (render_content sample_strptime sample_float sample_png "analysis" "2024-01-01"
          "2024-01-31" (fresh (answering 200 (Some nan_price)))) = Raise (KeyError "0") <->
   "analysis" = "analysis" /\
   ~ has_value (Price (mkDataFrame [Midnight (mkDate 2024 1 2)] [NaN])) /\
   KeyError "0" = KeyError "0").
Proof.
  assert (H : fst (get_gold_data sample_strptime sample_float "2024-01-01" "2024-01-31"
                     (fresh (answering 200 (Some nan_price)))) =
              Ok (Some (mkDataFrame [Midnight (mkDate 2024 1 2)] [NaN])))
    by (vm_compute; reflexivity).
  split; [exact H|].
  apply (fetched_callback_raises_iff_no_value sample_strptime sample_float
           sample_png "analysis" "2024-01-01" "2024-01-31"
           (fresh (answering 200 (Some nan_price)))
           (mkDataFrame [Midnight (mkDate 2024 1 2)] [NaN]) (KeyError "0")).
  exact H.
Defined.

Example nan_price_analysis_raises :
  fst (render_content sample_strptime sample_float sample_png "analysis" "2024-01-01"
         "2024-01-31" (fresh (answering 200 (Some nan_price)))) = Raise (KeyError "0") /\
  chart_statistics [NaN] = mkChartSummary NaN NaN NaN.
Proof. split; vm_compute; reflexivity. Qed.

(** X6, witness: the second of three elements has no price. *)
Lemma first_bad_element_aborts_witness :
  fst (get_gold_data sample_strptime sample_float "2024-01-01" "2024-01-31"
         (fresh (answering 200 (Some second_without_price)))) = Raise (KeyError "cena") /\
  fst (render_content sample_strptime sample_float sample_png "analysis" "2024-01-01"
         "2024-01-31" (fresh (answering 200 (Some second_without_price)))) =
    Raise (KeyError "cena").
Proof.
  apply (first_bad_element_aborts sample_strptime sample_float sample_png
           "analysis" "2024-01-01" "2024-01-31"
           (fresh (answering 200 (Some second_without_price)))
           (mkResponse 200 (Some second_without_price))
           [api_item "2024-01-02" 100] (JObj [("data", JStr "2024-01-03")])
           [api_item "2024-01-04" 300] (KeyError "cena")); try reflexivity.
  intros item [<- | []]. eexists. reflexivity.
Defined.

(** X7, witness: the four records. *)
Lemma fetched_frame_inversion_witness :
  exists r data items obs,
    answering 200 (Some four_days) (api_url "2024-01-01" "2024-01-31") = GetReturns r /\
    raise_for_status r = Ok tt /\
    body r = Some data /\
    iter data = Ok items /\
    Forall2 (fun item o => observation sample_strptime sample_float item = Ok o) items obs /\
    four_dates = map (fun o => Midnight (fst o)) obs /\
    test_prices = map snd obs /\
    4%nat = List.length items /\
    4%nat = List.length items.
Proof.
  apply (fetched_frame_inversion sample_strptime sample_float "2024-01-01" "2024-01-31"
           (fresh (answering 200 (Some four_days)))
           (mkDataFrame four_dates test_prices)).
  reflexivity.
Defined.

(** X8, witness: an error document with status 200. *)
Lemma non_array_body_witness :
  fst (get_gold_data sample_strptime sample_float "2024-01-01" "2024-01-31"
         (fresh (answering 200 (Some error_document)))) = Raise TypeError.
Proof.
  exact (non_array_body sample_strptime sample_float "2024-01-01" "2024-01-31"
           (fresh (answering 200 (Some error_document)))
           (mkResponse 200 (Some error_document)) error_document
           eq_refl eq_refl eq_refl).
Defined.

(** X14, witness: the chart of the four records. *)
Lemma chart_tab_summary_witness :
  fst (render_content sample_strptime sample_float sample_png "gold" "2024-01-01" "2024-01-31"
         (fresh (answering 200 (Some four_days)))) =
    Ok (Some (chart_view sample_png "2024-01-01" "2024-01-31"
                (mkDataFrame four_dates test_prices))) /\
  rounded_to_2 (Series_mean test_prices) (chart_avg_price (chart_statistics test_prices)) /\
  rounded_to_2 (Series_max test_prices) (chart_max_price (chart_statistics test_prices)) /\
  rounded_to_2 (Series_min test_prices) (chart_min_price (chart_statistics test_prices)) /\
  (has_value test_prices ->
   num_le (chart_min_price (chart_statistics test_prices))
          (chart_max_price (chart_statistics test_prices))) /\
  (~ has_value test_prices -> chart_statistics test_prices = mkChartSummary NaN NaN NaN).
Proof.
  apply (chart_tab_summary sample_strptime sample_float sample_png
           "2024-01-01" "2024-01-31" (fresh (answering 200 (Some four_days)))
           (mkDataFrame four_dates test_prices)).
  reflexivity.
Defined.

Example chart_of_test_prices :
  chart_statistics test_prices = mkChartSummary (Rat 250) (Rat 400) (Rat 100).
Proof. vm_compute. reflexivity. Qed.

(** ** The model against the machine's floats

    The rounding of this development agrees with the primitive binary64
    numbers on the examples: literals, [round(., 2)], the statistics of
    100, 200, 300, 400, the quartiles 0.006 and 0.014, a mean that exceeds
    the maximum, a mean that depends on the order, overflow, and the four
    operations, the square root and the order on a sample of floats. *)
Module Binary64Checks.
Import PrimFloat.
Local Open Scope float_scope.

Local Abbreviation value := Binary64.of_float.

Example literals :
  value 129.1 = double 129.1 /\ value 2.675 = double 2.675 /\
  value 0.006 = double 0.006 /\ value 1e308 = double 1e308 /\
  value 5e-324 = double 5e-324.
Proof. repeat (match goal with |- _ /\ _ => split end); vm_compute; reflexivity. Qed.

Example round_2_675 :
  Binary64.round2 2.675 = 2.68 /\
  value (Binary64.round2 2.675) = round (double 2.675) 2.
Proof. split; vm_compute; reflexivity. Qed.

Example mean_of_test_prices :
  value ((0 + (0 + 100 + 200 + 300 + 400)) / 4) = Series_mean test_prices /\
  Binary64.round2 ((0 + (0 + 100 + 200 + 300 + 400)) / 4) = 250.
Proof. split; vm_compute; reflexivity. Qed.

Example quartiles_of_test_prices :
  value (Binary64.lerp 100 200 0.75) = Series_quantile test_prices 0.25 /\
  value (Binary64.lerp 200 300 0.5) = Series_quantile test_prices 0.5 /\
  value (Binary64.lerp 300 400 0.25) = Series_quantile test_prices 0.75 /\
  Binary64.round2 (325 - 175) = 150.
Proof. repeat (match goal with |- _ /\ _ => split end); vm_compute; reflexivity. Qed.

Example std_of_test_prices :
  sqrt (((250 - 100) * (250 - 100) + (250 - 200) * (250 - 200) +
         (250 - 300) * (250 - 300) + (250 - 400) * (250 - 400)) / 3) = 129.09944487358058 /\
  value 129.09944487358058 = Series_std test_prices /\
  Binary64.round2 129.09944487358058 = 129.1 /\
  value 129.1 = round (Series_std test_prices) 2.
Proof. repeat (match goal with |- _ /\ _ => split end); vm_compute; reflexivity. Qed.

Example close_quartiles_rounded_twice :
  Binary64.round2 0.006 = 0.01 /\
  Binary64.round2 0.014 = 0.01 /\
  Binary64.round2 (Binary64.round2 0.014 - Binary64.round2 0.006) = 0 /\
  Binary64.round2 (0.014 - 0.006) = 0.01 /\
  value (0.014 - 0.006) =
    num_sub (Series_quantile close_prices 0.75) (Series_quantile close_prices 0.25).
Proof. repeat (match goal with |- _ /\ _ => split end); vm_compute; reflexivity. Qed.

Example mean_of_two_prices :
  Binary64.round2 ((0 + (0 + 258.66 + 260.03)) / 2) = 259.35 /\
  value 259.35 = round (Series_mean (map double [258.66%Q; 260.03%Q])) 2.
Proof. split; vm_compute; reflexivity. Qed.

Example mean_above_maximum :
  (0 + (0 + 0.025 + 0.025 + 0.025)) / 3 = 0.025000000000000005 /\
  value ((0 + (0 + 0.025 + 0.025 + 0.025)) / 3) =
    Series_mean (map double [0.025%Q; 0.025%Q; 0.025%Q]) /\
  Binary64.round2 0.025000000000000005 = 0.03 /\
  Binary64.round2 0.025 = 0.02.
Proof. repeat (match goal with |- _ /\ _ => split end); vm_compute; reflexivity. Qed.

Example mean_in_two_orders :
  Binary64.round2 ((0 + (0 + 321.41 + 360.46 + 209.69 + 353.78)) / 4) = 311.33 /\
  Binary64.round2 ((0 + (0 + 209.69 + 353.78 + 321.41 + 360.46)) / 4) = 311.34.
Proof. split; vm_compute; reflexivity. Qed.

Example overflow :
  value (1e308 * 100) = num_mul (double 1e308) (double 100) /\
  value (1e308 + 1e308) = num_add (double 1e308) (double 1e308) /\
  value (Binary64.round2 1e308 - Binary64.round2 1e308) = NaN.
Proof. repeat (match goal with |- _ /\ _ => split end); vm_compute; reflexivity. Qed.

Example arithmetic_agrees_on_samples :
  Binary64.agree2 add num_add Binary64.samples = true /\
  Binary64.agree2 sub num_sub Binary64.samples = true /\
  Binary64.agree2 mul num_mul Binary64.samples = true /\
  Binary64.agree2 div num_div (tl Binary64.samples) = true /\
  Binary64.agree1 sqrt num_sqrt = true /\
  Binary64.agree_leb = true.
Proof. repeat (match goal with |- _ /\ _ => split end); vm_compute; reflexivity. Qed.

End Binary64Checks.

